(** * The pipeline controller of KubeSphere: sync handler and spec hash

    A shallow embedding of [pkg/controller/pipeline/pipeline_controller.go]:
    the reconciliation function [syncHandler], the namespace gate
    [isDevOpsProjectAdminNamespace] and the idempotency hash [computeHash],
    followed by the properties of the controller's specification that can
    be stated over them.

    Go values that the code inspects through reflection ([interface{}]
    arguments of [computeHash] and [reflect.DeepEqual]) are trees of type
    [GoValue]; a Go [map] is kept as the list of its entries in iteration
    order, which Go leaves unspecified, so that independence of that order
    is a statement about the model and not a property of the encoding.
    Calls that leave the process (the DevOps client, the API server) are
    recorded in a trace by a small monad with early return. *)

From stdpp Require Import base strings list gmap sorting pretty.
From Stdlib Require Import ZArith Lia Ascii.

Local Open Scope Z_scope.

Set Warnings "-register-all".

(** ** Reflected Go values *)

(** The reflection view of a Go value.  Every node carries the name of its
    Go type as [reflect.Type.String] prints it.  [VNil] is a nil pointer,
    slice or map; a non-nil empty slice is [VSlice ty []].  Struct fields
    come in declaration order, map entries in iteration order. *)
Inductive GoValue : Type :=
  | VBool (ty : string) (b : bool)
  | VInt (ty : string) (n : Z)
  | VString (ty : string) (s : string)
  | VNil (ty : string)
  | VPtr (ty : string) (elem : GoValue)
  | VSlice (ty : string) (elems : list GoValue)
  | VStruct (ty : string) (fields : list (string * GoValue))
  | VMap (ty : string) (entries : list (string * GoValue)).

(** [v.MapIndex(k)] on the entry list of a map. *)
Fixpoint MapIndex {A} (entries : list (string * A)) (k : string) : option A :=
  match entries with
  | [] => None
  | (k', v) :: rest => if decide (k' = k) then Some v else MapIndex rest k
  end.

(** [reflect.DeepEqual] on reflected values: same type, and then equal
    scalars, both nil, deeply equal pointees, slices and structs equal
    element by element, maps of the same length whose keys index deeply
    equal values. *)
Fixpoint DeepEqual (x y : GoValue) : bool :=
  match x, y with
  | VBool t1 a, VBool t2 b => bool_decide (t1 = t2) && bool_decide (a = b)
  | VInt t1 a, VInt t2 b => bool_decide (t1 = t2) && bool_decide (a = b)
  | VString t1 a, VString t2 b => bool_decide (t1 = t2) && bool_decide (a = b)
  | VNil t1, VNil t2 => bool_decide (t1 = t2)
  | VPtr t1 a, VPtr t2 b => bool_decide (t1 = t2) && DeepEqual a b
  | VSlice t1 l1, VSlice t2 l2 =>
      bool_decide (t1 = t2) &&
      (fix elems (l1 l2 : list GoValue) : bool :=
         match l1, l2 with
         | [], [] => true
         | a :: l1', b :: l2' => DeepEqual a b && elems l1' l2'
         | _, _ => false
         end) l1 l2
  | VStruct t1 f1, VStruct t2 f2 =>
      bool_decide (t1 = t2) &&
      (fix fields (l1 l2 : list (string * GoValue)) : bool :=
         match l1, l2 with
         | [], [] => true
         | a :: l1', b :: l2' =>
             bool_decide (a.1 = b.1) && DeepEqual a.2 b.2 && fields l1' l2'
         | _, _ => false
         end) f1 f2
  | VMap t1 e1, VMap t2 e2 =>
      bool_decide (t1 = t2) &&
      bool_decide (length e1 = length e2) &&
      forallb (fun kv => match MapIndex e2 kv.1 with
                         | Some w => DeepEqual kv.2 w
                         | None => false
                         end) e1
  | _, _ => false
  end.

(** ** The idempotency hash *)

(** The printer of go-spew is a library outside the repository.  The spec
    (4.5) has the hash "traverse nested structures" and "sort map keys
    before hashing"; [deepHashObject] asks for that with [SortKeys: true]
    and prints with the verb [%#v], which writes the type of a value in
    parentheses before it, except before the elements of slices and maps
    and the target of a pointer. *)
Module spew.

(** Modelled from the spec: the type of a value in parentheses, left out
    where the printer has set [ignoreNextType]. *)
Definition typeTag (ignoreNextType : bool) (ty : string) : string :=
  if ignoreNextType then "" else "(" +:+ ty +:+ ")".

(** Modelled from the spec: the parts of a composite value, separated. *)
Fixpoint join (sep : string) (parts : list string) : string :=
  match parts with
  | [] => ""
  | [p] => p
  | p :: rest => p +:+ sep +:+ join sep rest
  end.

(** Modelled from the spec: the order the printer "sorts map keys" by;
    string keys are compared as strings.  Entries are pairs of a key and
    its printed value. *)
Definition keyLe (a b : string * string) : Prop := String.le a.1 b.1.

#[export] Instance keyLe_dec : RelDecision keyLe.
Proof. intros a b. unfold keyLe. apply _. Defined.

(** Modelled from the spec: "sorts map keys before hashing", that is
    [sort.Sort] with that order.  Any sorting algorithm returns the same
    list on the keys of a map, which are pairwise distinct. *)
Definition sortValues (entries : list (string * string)) : list (string * string) :=
  merge_sort keyLe entries.

(** Modelled from the spec: a key or field name, a colon, the value. *)
Definition entry (kv : string * string) : string := kv.1 +:+ ":" +:+ kv.2.

(** Modelled from the spec: the printer "traverses nested structures":
    pointers are followed, slices and structs are printed element by
    element in their order, maps entry by entry in the order of their
    sorted keys.  The values of a map are printed before the entries are
    sorted by key, which yields the same bytes as printing them after. *)
Fixpoint format (ignoreNextType : bool) (v : GoValue) : string :=
  match v with
  | VBool ty b => typeTag ignoreNextType ty +:+ (if b then "true" else "false")
  | VInt ty n => typeTag ignoreNextType ty +:+ pretty n
  | VString ty s => typeTag ignoreNextType ty +:+ s
  | VNil ty => typeTag ignoreNextType ty +:+ "<nil>"
  | VPtr ty elem =>
      (if ignoreNextType then "<*>" else "(" +:+ ty +:+ ")") +:+ format true elem
  | VSlice ty elems =>
      typeTag ignoreNextType ty +:+ "[" +:+ join " " (map (format true) elems) +:+ "]"
  | VStruct ty fields =>
      typeTag ignoreNextType ty +:+ "{" +:+
      join " " (map (fun f => entry (f.1, format false f.2)) fields) +:+ "}"
  | VMap ty entries =>
      typeTag ignoreNextType ty +:+ "map[" +:+
      join " " (map entry (sortValues (map (fun e => (e.1, format true e.2)) entries)))
      +:+ "]"
  end.

(** Modelled from the spec: [printer.Fprintf(w, "%#v", obj)], the bytes
    handed to the writer. *)
Definition Fprintf (obj : GoValue) : string := format false obj.

End spew.

(** [hash/fnv] of the Go standard library: the 32-bit FNV-1a hash, its
    [uint32] state as a [Z] below 2^32. *)
Module fnv.

Definition offset32 : Z := 2166136261.

Definition prime32 : Z := 16777619.

(** [fnv.New32a()]: the initial state. *)
Definition New32a : Z := offset32.

(** [Write(data)]: xor each byte into the state, then multiply. *)
Fixpoint Write (hash : Z) (data : string) : Z :=
  match data with
  | EmptyString => hash
  | String c rest =>
      Write ((Z.lxor hash (Z.of_N (Ascii.N_of_ascii c)) * prime32) mod 2 ^ 32) rest
  end.

End fnv.

(** [k8s.io/apimachinery/pkg/util/rand]: the spec's "short printable
    token" is the decimal sum re-encoded in an alphabet without vowels. *)
Module rand.

Definition alphanums : string := "bcdfghjklmnpqrstvwxz2456789".

(** [alphanums[int(b) % len(alphanums)]]. *)
Definition encodeByte (b : Ascii.ascii) : Ascii.ascii :=
  default b
    (String.get (N.to_nat (Ascii.N_of_ascii b) mod String.length alphanums) alphanums).

(** [rand.SafeEncodeString(s)], byte by byte. *)
Fixpoint SafeEncodeString (s : string) : string :=
  match s with
  | EmptyString => EmptyString
  | String b rest => String (encodeByte b) (SafeEncodeString rest)
  end.

End rand.

(** [deepHashObject(hasher, objectToWrite)]: reset the hasher and print the
    object into it; the hasher's state afterwards. *)
Definition deepHashObject (objectToWrite : GoValue) : Z :=
  fnv.Write fnv.New32a (spew.Fprintf objectToWrite).

(** [computeHash(obj)]: the decimal digits of the 32-bit sum, encoded. *)
Definition computeHash (obj : GoValue) : string :=
  rand.SafeEncodeString (pretty (deepHashObject obj)).

(** ** Errors *)

(** The dynamic types of Go [error] values that the handler tells apart. *)
Inductive error : Type :=
  | StatusError (Reason : string) (Message : string)
      (** [*errors.StatusError] of k8s.io/apimachinery *)
  | ServiceError (Code : Z) (Message : string)
      (** [restful.ServiceError] *)
  | ErrorResponse (StatusCode : Z) (Message : string)
      (** [*devopsClient.ErrorResponse], with the status of its response *)
  | errorString (s : string).
      (** [fmt.Errorf] and every other error type *)

#[export] Instance error_eq_dec : EqDecision error.
Proof. solve_decision. Defined.

(** A Go result pair [(T, error)]. *)
Inductive result (A : Type) : Type :=
  | Ok (a : A)
  | Err (err : error).
Arguments Ok {A} a.
Arguments Err {A} err.

(** [k8s.io/apimachinery/pkg/api/errors]. *)
Module errors.

Definition StatusReasonNotFound : string := "NotFound".

(** [errors.IsNotFound]: the reason of an API status error is NotFound. *)
Definition IsNotFound (err : error) : bool :=
  match err with
  | StatusError Reason _ => bool_decide (Reason = StatusReasonNotFound)
  | _ => false
  end.

End errors.

Module http.

Definition StatusNotFound : Z := 404.

End http.

(** ** Kubernetes objects *)

(** [metav1.Time] as seconds since Go's zero instant. *)
Definition Time : Type := Z.

(** [IsZero] on a pointer to [metav1.Time]: nil or the zero instant. *)
Definition IsZero (t : option Time) : bool :=
  match t with
  | None => true
  | Some t => bool_decide (t = 0)
  end.

Record OwnerReference : Type := {
  ownerKind : string;
  ownerName : string
}.

Record Namespace : Type := {
  namespaceName : string;
  Labels : gmap string string;
  OwnerReferences : list OwnerReference
}.

(** The metadata of a pipeline.  [Annotations] is [None] for Go's nil map,
    which differs from the empty map under [reflect.DeepEqual].  The
    handler only ever makes [Finalizers] longer or shorter, so a nil and an
    empty slice need not be told apart there. *)
Record ObjectMeta : Type := {
  Name : string;
  metaNamespace : string;
  ResourceVersion : string;
  DeletionTimestamp : option Time;
  Annotations : option (gmap string string);
  Finalizers : list string
}.

#[export] Instance ObjectMeta_eq_dec : EqDecision ObjectMeta.
Proof. solve_decision. Defined.

Record Pipeline : Type := {
  Meta : ObjectMeta;
  Spec : GoValue
}.

Definition setAnnotations (p : Pipeline) (a : option (gmap string string)) : Pipeline :=
  {| Meta := {| Name := Name (Meta p); metaNamespace := metaNamespace (Meta p);
                ResourceVersion := ResourceVersion (Meta p);
                DeletionTimestamp := DeletionTimestamp (Meta p);
                Annotations := a; Finalizers := Finalizers (Meta p) |};
     Spec := Spec p |}.

Definition setFinalizers (p : Pipeline) (f : list string) : Pipeline :=
  {| Meta := {| Name := Name (Meta p); metaNamespace := metaNamespace (Meta p);
                ResourceVersion := ResourceVersion (Meta p);
                DeletionTimestamp := DeletionTimestamp (Meta p);
                Annotations := Annotations (Meta p); Finalizers := f |};
     Spec := Spec p |}.

(** The annotation map of a pipeline, read the way Go reads a map that may
    be nil: every key is absent from a nil map. *)
Definition annotations (p : Pipeline) : gmap string string :=
  default ∅ (Annotations (Meta p)).

(** [p.Annotations[k] = v] on a map that is not nil. *)
Definition annotate (p : Pipeline) (k v : string) : Pipeline :=
  setAnnotations p (Some (<[k := v]> (annotations p))).

(** [pipeline.DeepCopy()]: values are immutable here. *)
Definition DeepCopy (p : Pipeline) : Pipeline := p.

(** [reflect.DeepEqual] on two pipelines. *)
Definition DeepEqualPipeline (p q : Pipeline) : bool :=
  bool_decide (Meta p = Meta q) && DeepEqual (Spec p) (Spec q).

(** ** Constants and helpers declared elsewhere in the repository *)

(** The constants of [pkg/apis/devops/v1alpha3], which is not among the
    sources. *)
Module devopsv1alpha3.

(** Modelled from the spec: "the controller's finalizer tag". *)
Definition PipelineFinalizerName : string := "pipeline.finalizers.kubesphere.io".

(** Modelled from the spec: the controller-owned annotation key
    "sync-status". *)
Definition PipelineSyncStatusAnnoKey : string := "pipeline.devops.kubesphere.io/syncstatus".

(** Modelled from the spec: the controller-owned annotation key
    "spec-hash". *)
Definition PipelineSpecHash : string := "pipeline.devops.kubesphere.io/spechash".

(** Modelled from the spec: the "designated kind" of the owner of an
    eligible namespace. *)
Definition ResourceKindDevOpsProject : string := "DevOpsProject".

End devopsv1alpha3.

Module modelsdevops.

(** Modelled from the spec: [StatusSuccessful] of [pkg/models/devops],
    the value "successful" of the sync-status annotation. *)
Definition StatusSuccessful : string := "successful".

End modelsdevops.

Module constants.

(** Modelled from the spec: the "specific ownership label" of an eligible
    namespace, [DevOpsProjectLabelKey] of [pkg/constants]. *)
Definition DevOpsProjectLabelKey : string := "kubesphere.io/devopsproject".

End constants.

Module sliceutil.

(** Modelled from the spec: [pkg/utils/sliceutil] is not among the
    sources.  The finalizers are "a set of finalizer tags (strings)";
    [HasString] tells whether a tag is in the slice. *)
Definition HasString (slice : list string) (str : string) : bool :=
  existsb (fun s => bool_decide (s = str)) slice.

(** Modelled from the spec: "remove the finalizer tag from the copy";
    [RemoveString] drops every item the predicate selects. *)
Definition RemoveString (slice : list string) (remove : string → bool) : list string :=
  List.filter (fun item => negb (remove item)) slice.

End sliceutil.

Module k8sutil.

(** Modelled from the spec: [pkg/utils/k8sutil] is not among the sources.
    A namespace is eligible when it "is owned by a resource of a
    designated kind"; an empty [name] accepts every owner of that kind. *)
Definition IsControlledBy (ownerReferences : list OwnerReference)
    (kind name : string) : bool :=
  existsb (fun owner => bool_decide (ownerKind owner = kind) &&
                        (bool_decide (name = "") || bool_decide (ownerName owner = name)))
          ownerReferences.

End k8sutil.

(** [k8s.io/client-go/tools/cache]. *)
Module cache.

(** [strings.Split(key, "/")], with the part read so far in [cur]. *)
Fixpoint Split (cur : string) (key : string) : list string :=
  match key with
  | EmptyString => [String.rev cur]
  | String c rest =>
      if decide (c = "/"%char) then String.rev cur :: Split "" rest
      else Split (String c cur) rest
  end.

(** [cache.SplitMetaNamespaceKey]: a bare name, or a namespace and a
    name; anything else is an error (its message here without the quotes
    of [%q]). *)
Definition SplitMetaNamespaceKey (key : string) : result (string * string) :=
  match Split "" key with
  | [name] => Ok ("", name)
  | [namespace; name] => Ok (namespace, name)
  | _ => Err (errorString ("unexpected key format: " +:+ key))
  end.

End cache.

(** ** Calls that leave the process, and the handler's control flow *)

(** One entry per call to the DevOps client (the Jenkins side) or to the
    API server through the KubeSphere clientset. *)
Inductive Call : Type :=
  | CallGetProjectPipelineConfig (projectName pipelineName : string)
  | CallCreateProjectPipeline (projectName : string) (pipeline : Pipeline)
  | CallUpdateProjectPipeline (projectName : string) (pipeline : Pipeline)
  | CallDeleteProjectPipeline (projectName pipelineName : string)
  | CallPipelinesUpdate (namespace : string) (pipeline : Pipeline).

(** A call to the DevOps client. *)
Definition isRemoteCall (c : Call) : bool :=
  match c with
  | CallPipelinesUpdate _ _ => false
  | _ => true
  end.

(** The pipelines handed to the API server for writing. *)
Definition storeWrites (trace : list Call) : list Pipeline :=
  omap (fun c => match c with
                 | CallPipelinesUpdate _ p => Some p
                 | _ => None
                 end) trace.

(** The calls made to the DevOps client. *)
Definition remoteCalls (trace : list Call) : list Call :=
  List.filter isRemoteCall trace.

(** A statement either falls through with a value or leaves the function
    with the error it returns ([None] for Go's [nil]). *)
Inductive Flow (A : Type) : Type :=
  | Continue (a : A)
  | Return (err : option error).
Arguments Continue {A} a.
Arguments Return {A} err.

(** A block of the handler: it extends the trace of calls made so far. *)
Definition M (A : Type) : Type := list Call → Flow A * list Call.

#[export] Instance M_ret : MRet M := fun A a trace => (Continue a, trace).

#[export] Instance M_bind : MBind M := fun A B k m trace =>
  match m trace with
  | (Continue a, trace') => k a trace'
  | (Return err, trace') => (Return err, trace')
  end.

(** [return err] in the middle of the function. *)
Definition leave {A} (err : option error) : M A := fun trace => (Return err, trace).

(** A call and the answer the outside world gives to it. *)
Definition perform {A} (c : Call) (answer : A) : M A :=
  fun trace => (Continue answer, trace ++ [c]).

(** Running a function body from its first statement: the error returned
    and the calls made. *)
Definition run (body : M (option error)) : option error * list Call :=
  match body [] with
  | (Continue err, trace) => (err, trace)
  | (Return err, trace) => (err, trace)
  end.

(** ** The controller *)

(** [devopsClient.Interface], as far as the handler uses it: the answer of
    the DevOps service to each call. *)
Record DevopsClient : Type := {
  GetProjectPipelineConfig : string → string → result Pipeline;
  CreateProjectPipeline : string → Pipeline → result string;
  UpdateProjectPipeline : string → Pipeline → result string;
  DeleteProjectPipeline : string → string → result string
}.

(** The fields of [Controller] that [syncHandler] reads: the two listers
    (cached reads), the DevOps client, and the [Update] of
    [kubesphereClient.DevopsV1alpha3().Pipelines(ns)]. *)
Record Controller : Type := {
  namespaceLister : string → result Namespace;
  devOpsProjectLister : string → string → result Pipeline;
  devopsClient : DevopsClient;
  kubesphereClient : string → Pipeline → result Pipeline
}.

(** [isDevOpsProjectAdminNamespace]: the namespace carries the DevOps
    project label and is controlled by a DevOps project. *)
Definition isDevOpsProjectAdminNamespace (namespace : Namespace) : bool :=
  let ok := bool_decide (is_Some (Labels namespace !! constants.DevOpsProjectLabelKey)) in
  ok && k8sutil.IsControlledBy (OwnerReferences namespace)
          devopsv1alpha3.ResourceKindDevOpsProject "".

(** The error of line 218. *)
Definition errNormalNamespace (namespace : Namespace) : error :=
  errorString ("cound not create copyPipeline in normal namespaces " +:+ namespaceName namespace).

(** The error of line 307. *)
Definition errFinalizer : error :=
  errorString "failed to remove pipeline job finalizer due to bad communication with Jenkins".

(** Lines 284-298, the flag [delSuccess]: no error, or an error of one of
    the two known types with status 404. *)
Definition delSuccess (r : result string) : bool :=
  match r with
  | Ok _ => true
  | Err (ServiceError Code _) => bool_decide (Code = http.StatusNotFound)
  | Err (ErrorResponse StatusCode _) => bool_decide (StatusCode = http.StatusNotFound)
  | Err _ => false
  end.

(** Lines 233-310 of [syncHandler]: the copy of the pipeline after the
    branch on the deletion timestamp, unless the branch returns. *)
Definition reconcile (c : Controller) (nsName : string) (pipeline : Pipeline) : M Pipeline :=
  let copyPipeline := DeepCopy pipeline in
  if IsZero (DeletionTimestamp (Meta copyPipeline)) then
    (* make sure Annotations is not nil *)
    let copyPipeline :=
      match Annotations (Meta copyPipeline) with
      | None => setAnnotations copyPipeline (Some ∅)
      | Some _ => copyPipeline
      end in
    (* If the sync is successful, return handle *)
    copyPipeline ←
      match annotations copyPipeline !! devopsv1alpha3.PipelineSyncStatusAnnoKey with
      | Some state =>
          if bool_decide (state = modelsdevops.StatusSuccessful) then
            let specHash := computeHash (Spec copyPipeline) in
            let oldHash :=
              default "" (annotations copyPipeline !! devopsv1alpha3.PipelineSpecHash) in
            if bool_decide (specHash = oldHash) then leave None
            else mret (annotate copyPipeline devopsv1alpha3.PipelineSpecHash specHash)
          else mret copyPipeline
      | None => mret copyPipeline
      end;
    let copyPipeline :=
      if negb (sliceutil.HasString (Finalizers (Meta copyPipeline))
                 devopsv1alpha3.PipelineFinalizerName)
      then setFinalizers copyPipeline
             (Finalizers (Meta copyPipeline) ++ [devopsv1alpha3.PipelineFinalizerName])
      else copyPipeline in
    (* Check pipeline config exists, otherwise we will create it. *)
    got ← perform (CallGetProjectPipelineConfig nsName (Name (Meta pipeline)))
            (GetProjectPipelineConfig (devopsClient c) nsName (Name (Meta pipeline)));
    match got with
    | Ok jenkinsPipeline =>
        if negb (DeepEqual (Spec jenkinsPipeline) (Spec copyPipeline)) then
          updated ← perform (CallUpdateProjectPipeline nsName copyPipeline)
                      (UpdateProjectPipeline (devopsClient c) nsName copyPipeline);
          match updated with
          | Err err => leave (Some err)
          | Ok _ => mret ()
          end
        else mret ()
    | Err _ =>
        created ← perform (CallCreateProjectPipeline nsName copyPipeline)
                    (CreateProjectPipeline (devopsClient c) nsName copyPipeline);
        match created with
        | Err err => leave (Some err)
        | Ok _ => mret ()
        end
    end;;
    (* If there is no early return, then the sync is successful. *)
    mret (annotate copyPipeline devopsv1alpha3.PipelineSyncStatusAnnoKey
            modelsdevops.StatusSuccessful)
  else
    (* Finalizers processing logic *)
    if sliceutil.HasString (Finalizers (Meta copyPipeline))
         devopsv1alpha3.PipelineFinalizerName
    then
      deleted ← perform (CallDeleteProjectPipeline nsName (Name (Meta pipeline)))
                  (DeleteProjectPipeline (devopsClient c) nsName (Name (Meta pipeline)));
      if delSuccess deleted then
        mret (setFinalizers copyPipeline
                (sliceutil.RemoveString (Finalizers (Meta copyPipeline))
                   (fun item => bool_decide (item = devopsv1alpha3.PipelineFinalizerName))))
      else
        leave (Some errFinalizer)
    else mret copyPipeline.

(** Lines 312-319: write the copy back when it differs from the original. *)
Definition persist (c : Controller) (nsName : string)
    (pipeline copyPipeline : Pipeline) : M (option error) :=
  if negb (DeepEqualPipeline pipeline copyPipeline) then
    written ← perform (CallPipelinesUpdate nsName copyPipeline)
                (kubesphereClient c nsName copyPipeline);
    match written with
    | Err err => leave (Some err)
    | Ok _ => mret None
    end
  else mret None.

(** The body of [syncHandler]. *)
Definition syncHandlerBody (c : Controller) (key : string) : M (option error) :=
  match cache.SplitMetaNamespaceKey key with
  | Err _ => leave None
  | Ok (nsName, name) =>
      match namespaceLister c nsName with
      | Err err => if errors.IsNotFound err then leave None else leave (Some err)
      | Ok namespace =>
          if negb (isDevOpsProjectAdminNamespace namespace) then
            leave (Some (errNormalNamespace namespace))
          else
            match devOpsProjectLister c nsName name with
            | Err err => if errors.IsNotFound err then leave None else leave (Some err)
            | Ok pipeline =>
                copyPipeline ← reconcile c nsName pipeline;
                persist c nsName pipeline copyPipeline
            end
      end
  end.

(** [syncHandler(key)]: the error it returns and the calls it makes. *)
Definition syncHandler (c : Controller) (key : string) : option error * list Call :=
  run (syncHandlerBody c key).

(** What [processNextWorkItem] tells the work queue about a key. *)
Inductive QueueOp : Type :=
  | AddRateLimited (key : string)
  | Forget (key : string)
  | Done (key : string).

(** Lines 142-159 of [processNextWorkItem] for a string key: an error of
    the handler requeues the key with backoff, success forgets it; the
    deferred [Done] comes last. *)
Definition processNextWorkItem (c : Controller) (key : string) : list QueueOp :=
  match (syncHandler c key).1 with
  | Some _ => [AddRateLimited key; Done key]
  | None => [Forget key; Done key]
  end.

(** The controller as the next invocation of the handler finds it.  The
    pipeline lister serves what the API server stored on each successful
    [Update] of the trace; the DevOps service answers by [client'], which
    need not be what it answered before. *)
Definition observe (c : Controller) (trace : list Call) (client' : DevopsClient) : Controller :=
  {| namespaceLister := namespaceLister c;
     devOpsProjectLister :=
       foldl (fun lister call =>
                match call with
                | CallPipelinesUpdate ns p =>
                    match kubesphereClient c ns p with
                    | Ok stored => fun n m =>
                        if decide (n = ns ∧ m = Name (Meta p)) then Ok stored else lister n m
                    | Err _ => lister
                    end
                | _ => lister
                end) (devOpsProjectLister c) trace;
     devopsClient := client';
     kubesphereClient := kubesphereClient c |}.

(** ** Vocabulary of the specification *)

(** The handler got as far as the pipeline: the key splits, the namespace
    is served and eligible, and the pipeline is served. *)
Definition resolves (c : Controller) (key nsName name : string)
    (namespace : Namespace) (pipeline : Pipeline) : Prop :=
  cache.SplitMetaNamespaceKey key = Ok (nsName, name) ∧
  namespaceLister c nsName = Ok namespace ∧
  isDevOpsProjectAdminNamespace namespace = true ∧
  devOpsProjectLister c nsName name = Ok pipeline.

(** No deletion marker. *)
Definition live (pipeline : Pipeline) : Prop :=
  IsZero (DeletionTimestamp (Meta pipeline)) = true.

(** The controller's finalizer tag is among the finalizers. *)
Definition hasFinalizer (pipeline : Pipeline) : Prop :=
  devopsv1alpha3.PipelineFinalizerName ∈ Finalizers (Meta pipeline).

(** The idempotency fast path of the spec: sync-status is successful and
    the stored spec-hash is the hash of the current spec. *)
Definition fastPath (pipeline : Pipeline) : Prop :=
  annotations pipeline !! devopsv1alpha3.PipelineSyncStatusAnnoKey
    = Some modelsdevops.StatusSuccessful ∧
  annotations pipeline !! devopsv1alpha3.PipelineSpecHash
    = Some (computeHash (Spec pipeline)).

#[export] Instance fastPath_dec pipeline : Decision (fastPath pipeline).
Proof. unfold fastPath. apply _. Defined.

(** The remote delete "returned success or a not-found response". *)
Inductive DeleteConfirmed : result string → Prop :=
  | deleted_ok (name : string) : DeleteConfirmed (Ok name)
  | deleted_service_not_found (msg : string) :
      DeleteConfirmed (Err (ServiceError 404 msg))
  | deleted_response_not_found (msg : string) :
      DeleteConfirmed (Err (ErrorResponse 404 msg)).

(** A namespace "lacks the ownership label or the designated owner kind". *)
Definition ineligible (namespace : Namespace) : Prop :=
  Labels namespace !! constants.DevOpsProjectLabelKey = None ∨
  ¬ ∃ owner, owner ∈ OwnerReferences namespace ∧
             ownerKind owner = devopsv1alpha3.ResourceKindDevOpsProject.

(** The copy the live branch hands to the DevOps service: annotations not
    nil, the spec-hash refreshed when sync-status was already successful,
    the finalizer present. *)
Definition prepared (pipeline : Pipeline) : Pipeline :=
  let anns := annotations pipeline in
  let anns :=
    if decide (anns !! devopsv1alpha3.PipelineSyncStatusAnnoKey
               = Some modelsdevops.StatusSuccessful)
    then <[devopsv1alpha3.PipelineSpecHash := computeHash (Spec pipeline)]> anns
    else anns in
  let fins :=
    if decide (hasFinalizer pipeline) then Finalizers (Meta pipeline)
    else Finalizers (Meta pipeline) ++ [devopsv1alpha3.PipelineFinalizerName] in
  setFinalizers (setAnnotations pipeline (Some anns)) fins.

(** The copy the live branch hands to persistence. *)
Definition synced (pipeline : Pipeline) : Pipeline :=
  annotate (prepared pipeline) devopsv1alpha3.PipelineSyncStatusAnnoKey
    modelsdevops.StatusSuccessful.

(** Unique keys in every map: the values Go can build. *)
Fixpoint validValue (v : GoValue) : bool :=
  match v with
  | VPtr _ elem => validValue elem
  | VSlice _ elems => forallb validValue elems
  | VStruct _ fields => forallb (fun f => validValue f.2) fields
  | VMap _ entries =>
      bool_decide (NoDup entries.*1) && forallb (fun e => validValue e.2) entries
  | _ => true
  end.

(** The pipeline a call carries, if any. *)
Definition carried (call : Call) : option Pipeline :=
  match call with
  | CallCreateProjectPipeline _ p
  | CallUpdateProjectPipeline _ p
  | CallPipelinesUpdate _ p => Some p
  | _ => None
  end.

(** Step 3.c of the spec's live branch as the code runs it, without the
    bookkeeping of the copy: read the remote config; any failure of the
    read leads to create, a remote spec that differs leads to update. *)
Definition remoteSync (c : Controller) (nsName : string) (pipeline : Pipeline) : M Pipeline :=
  fun trace =>
    let copy := prepared pipeline in
    let get := CallGetProjectPipelineConfig nsName (Name (Meta pipeline)) in
    match GetProjectPipelineConfig (devopsClient c) nsName (Name (Meta pipeline)) with
    | Ok jenkinsPipeline =>
        if DeepEqual (Spec jenkinsPipeline) (Spec pipeline) then
          (Continue (synced pipeline), trace ++ [get])
        else
          match UpdateProjectPipeline (devopsClient c) nsName copy with
          | Ok _ => (Continue (synced pipeline),
                     trace ++ [get; CallUpdateProjectPipeline nsName copy])
          | Err err => (Return (Some err),
                        trace ++ [get; CallUpdateProjectPipeline nsName copy])
          end
    | Err _ =>
        match CreateProjectPipeline (devopsClient c) nsName copy with
        | Ok _ => (Continue (synced pipeline),
                   trace ++ [get; CallCreateProjectPipeline nsName copy])
        | Err err => (Return (Some err),
                      trace ++ [get; CallCreateProjectPipeline nsName copy])
        end
    end.

(** The finalizers once the controller's tag is taken out. *)
Definition released (pipeline : Pipeline) : Pipeline :=
  setFinalizers pipeline
    (sliceutil.RemoveString (Finalizers (Meta pipeline))
       (fun item => bool_decide (item = devopsv1alpha3.PipelineFinalizerName))).

(** ** Concrete clusters *)

Module Examples.

Definition project : Namespace :=
  {| namespaceName := "proj";
     Labels := {[ constants.DevOpsProjectLabelKey := "proj" ]};
     OwnerReferences := [ {| ownerKind := "DevOpsProject"; ownerName := "proj" |} ] |}.

(** A namespace without the ownership label. *)
Definition plain : Namespace :=
  {| namespaceName := "default"; Labels := ∅; OwnerReferences := [] |}.

Definition spec : GoValue :=
  VStruct "v1alpha3.PipelineSpec"
    [("Type", VString "string" "pipeline");
     ("Pipeline", VNil "*v1alpha3.NoScmPipeline");
     ("MultiBranchPipeline", VNil "*v1alpha3.MultiBranchPipeline")].

Definition pipelineWith (deletion : option Time)
    (anns : option (gmap string string)) (fins : list string) : Pipeline :=
  {| Meta := {| Name := "p"; metaNamespace := "proj"; ResourceVersion := "1";
                DeletionTimestamp := deletion; Annotations := anns;
                Finalizers := fins |};
     Spec := spec |}.

(** Just created: no annotation, no finalizer. *)
Definition created : Pipeline := pipelineWith None None [].

(** Synced before, the hash of the current spec stored, no finalizer. *)
Definition settled : Pipeline :=
  pipelineWith None
    (Some {[ devopsv1alpha3.PipelineSyncStatusAnnoKey := modelsdevops.StatusSuccessful;
             devopsv1alpha3.PipelineSpecHash := computeHash spec ]})
    [].

(** Marked for deletion, the controller's finalizer still on it. *)
Definition deleting : Pipeline :=
  pipelineWith (Some 1600000000) (Some ∅) [devopsv1alpha3.PipelineFinalizerName].

Definition notFound : error := StatusError errors.StatusReasonNotFound "not found".

(** A DevOps service that answers every read and delete with [status]
    and accepts every create and update. *)
Definition failing (status : Z) : DevopsClient :=
  {| GetProjectPipelineConfig := fun _ _ => Err (ErrorResponse status "jenkins");
     CreateProjectPipeline := fun _ p => Ok "p";
     UpdateProjectPipeline := fun _ p => Ok "p";
     DeleteProjectPipeline := fun _ _ => Err (ErrorResponse status "jenkins") |}.

(** A DevOps service that holds the config [remote] of every pipeline. *)
Definition holding (remote : Pipeline) : DevopsClient :=
  {| GetProjectPipelineConfig := fun _ _ => Ok remote;
     CreateProjectPipeline := fun _ p => Ok "p";
     UpdateProjectPipeline := fun _ p => Ok "p";
     DeleteProjectPipeline := fun _ _ => Ok "p" |}.

(** A cluster with the namespaces [proj] and [default] and the one
    pipeline [proj/p]. *)
Definition cluster (pipeline : Pipeline) (client : DevopsClient) : Controller :=
  {| namespaceLister := fun n =>
       if decide (n = "proj") then Ok project
       else if decide (n = "default") then Ok plain
       else Err notFound;
     devOpsProjectLister := fun n m =>
       if decide (n = "proj" ∧ m = "p") then Ok pipeline else Err notFound;
     devopsClient := client;
     kubesphereClient := fun _ p => Ok p |}.

(** The same content in two iteration orders of the label map. *)
Definition labelled (labels : list (string * GoValue)) : GoValue :=
  VStruct "v1alpha3.PipelineSpec"
    [("Type", VString "string" "pipeline");
     ("Labels", VMap "map[string]string" labels)].

Definition labelsAB : list (string * GoValue) :=
  [("app", VString "string" "ci"); ("tier", VString "string" "build")].

Definition labelsBA : list (string * GoValue) :=
  [("tier", VString "string" "build"); ("app", VString "string" "ci")].

End Examples.

(** ** Event intake *)

(** What the informer hands to an event handler: the pipeline, or, for a
    deletion the watch missed, a tombstone around its last known state. *)
Inductive Object : Type :=
  | PipelineObject (p : Pipeline)
  | DeletedFinalStateUnknown (Key : string) (Obj : Pipeline).

(** [cache.MetaNamespaceKeyFunc]: the namespace and the name joined by a
    slash, or the bare name of an object without namespace; a tombstone
    has no object metadata. *)
Definition MetaNamespaceKeyFunc (obj : Object) : result string :=
  match obj with
  | PipelineObject p =>
      if decide (0 < String.length (metaNamespace (Meta p)))%nat
      then Ok (metaNamespace (Meta p) +:+ "/" +:+ Name (Meta p))
      else Ok (Name (Meta p))
  | DeletedFinalStateUnknown _ _ => Err (errorString "object has no meta")
  end.

(** [enqueuePipeline(obj)]: the keys it adds to the work queue; an object
    without key is reported and dropped. *)
Definition enqueuePipeline (obj : Object) : list string :=
  match MetaNamespaceKeyFunc obj with
  | Err _ => []
  | Ok key => [key]
  end.

(** The [UpdateFunc] of [NewController] (lines 109-116). *)
Definition UpdateFunc (old new : Pipeline) : list string :=
  if bool_decide (ResourceVersion (Meta old) = ResourceVersion (Meta new)) then []
  else enqueuePipeline (PipelineObject new).

(** No slash in a string, as in every Kubernetes name. *)
Fixpoint noSlash (s : string) : bool :=
  match s with
  | EmptyString => true
  | String c rest => negb (bool_decide (c = "/"%char)) && noSlash rest
  end.

(** ** More vocabulary *)

(** The error the outside world answers a writing call with, if any:
    create, update and the store's update.  A failed read leads to create
    and a failed delete is judged by its status, so neither counts. *)
Definition answeredError (c : Controller) (call : Call) : option error :=
  match call with
  | CallCreateProjectPipeline ns p =>
      match CreateProjectPipeline (devopsClient c) ns p with
      | Err err => Some err
      | Ok _ => None
      end
  | CallUpdateProjectPipeline ns p =>
      match UpdateProjectPipeline (devopsClient c) ns p with
      | Err err => Some err
      | Ok _ => None
      end
  | CallPipelinesUpdate ns p =>
      match kubesphereClient c ns p with
      | Err err => Some err
      | Ok _ => None
      end
  | _ => None
  end.

(** The API server stored [written] as [stored]: everything the handler
    reads is kept; the resource version is the server's. *)
Definition storedAs (stored written : Pipeline) : Prop :=
  Spec stored = Spec written ∧
  Name (Meta stored) = Name (Meta written) ∧
  DeletionTimestamp (Meta stored) = DeletionTimestamp (Meta written) ∧
  Annotations (Meta stored) = Annotations (Meta written) ∧
  Finalizers (Meta stored) = Finalizers (Meta written).

(** [copy] is [pipeline] up to the controller's own marks: the same spec,
    name, namespace, resource version and deletion timestamp, the same
    annotations under every key but sync-status and spec-hash, and the
    same finalizers in the same order once the controller's tag is left
    out. *)
Definition ownMarksOnly (pipeline copy : Pipeline) : Prop :=
  Spec copy = Spec pipeline ∧
  Name (Meta copy) = Name (Meta pipeline) ∧
  metaNamespace (Meta copy) = metaNamespace (Meta pipeline) ∧
  ResourceVersion (Meta copy) = ResourceVersion (Meta pipeline) ∧
  DeletionTimestamp (Meta copy) = DeletionTimestamp (Meta pipeline) ∧
  (∀ k, k ≠ devopsv1alpha3.PipelineSyncStatusAnnoKey →
        k ≠ devopsv1alpha3.PipelineSpecHash →
        annotations copy !! k = annotations pipeline !! k) ∧
  filter (λ f, f ≠ devopsv1alpha3.PipelineFinalizerName) (Finalizers (Meta copy))
  = filter (λ f, f ≠ devopsv1alpha3.PipelineFinalizerName) (Finalizers (Meta pipeline)).

(** The namespace and the pipeline name a call is addressed to. *)
Definition addressee (call : Call) : string * string :=
  match call with
  | CallGetProjectPipelineConfig ns n
  | CallDeleteProjectPipeline ns n => (ns, n)
  | CallCreateProjectPipeline ns p
  | CallUpdateProjectPipeline ns p
  | CallPipelinesUpdate ns p => (ns, Name (Meta p))
  end.

(** The decimal digits, the characters [fmt.Sprint] prints a [uint32]
    with. *)
Definition digits : list ascii :=
  ["0"; "1"; "2"; "3"; "4"; "5"; "6"; "7"; "8"; "9"]%char.

(** The characters of a hash token: the images of the ten digits. *)
Definition tokenChars : list ascii :=
  ["4"; "5"; "6"; "7"; "8"; "9"; "b"; "c"; "d"; "f"]%char.

(** The characters of a string. *)
Fixpoint chars (s : string) : list ascii :=
  match s with
  | EmptyString => []
  | String c rest => c :: chars rest
  end.

Module MoreExamples.

(** A DevOps service without any config that refuses every create. *)
Definition refusing : DevopsClient :=
  {| GetProjectPipelineConfig := fun _ _ => Err (ErrorResponse 404 "jenkins");
     CreateProjectPipeline := fun _ _ => Err (ErrorResponse 500 "jenkins");
     UpdateProjectPipeline := fun _ _ => Ok "p";
     DeleteProjectPipeline := fun _ _ => Ok "p" |}.

(** Marked for deletion, the controller's finalizer already gone, the
    finalizer of another controller still there. *)
Definition cleaned : Pipeline :=
  Examples.pipelineWith (Some 1600000000) (Some ∅) ["other.finalizers.example.io"].

(** A cluster whose listers fail with an internal error. *)
Definition broken : Controller :=
  {| namespaceLister := fun _ => Err (StatusError "InternalError" "cache");
     devOpsProjectLister := fun _ _ => Err (StatusError "InternalError" "cache");
     devopsClient := Examples.failing 404;
     kubesphereClient := fun _ p => Ok p |}.

(** Two pipelines on the fast path whose specs differ in the order of
    the entries of a map only. *)
Definition labelledAB : Pipeline :=
  {| Meta := {| Name := "p"; metaNamespace := "proj"; ResourceVersion := "7";
                DeletionTimestamp := None;
                Annotations :=
                  Some {[ devopsv1alpha3.PipelineSyncStatusAnnoKey := modelsdevops.StatusSuccessful;
                          devopsv1alpha3.PipelineSpecHash :=
                            computeHash (Examples.labelled Examples.labelsAB) ]};
                Finalizers := [devopsv1alpha3.PipelineFinalizerName] |};
     Spec := Examples.labelled Examples.labelsAB |}.

Definition labelledBA : Pipeline :=
  {| Meta := Meta labelledAB; Spec := Examples.labelled Examples.labelsBA |}.

End MoreExamples.

(** * Properties *)

(** ** The hash *)

Section GoValue_induction.
Context (P : GoValue → Prop).
Hypothesis Hbool : ∀ ty b, P (VBool ty b).
Hypothesis Hint : ∀ ty n, P (VInt ty n).
Hypothesis Hstring : ∀ ty s, P (VString ty s).
Hypothesis Hnil : ∀ ty, P (VNil ty).
Hypothesis Hptr : ∀ ty elem, P elem → P (VPtr ty elem).
Hypothesis Hslice : ∀ ty elems, Forall P elems → P (VSlice ty elems).
Hypothesis Hstruct : ∀ ty fields, Forall (λ f, P f.2) fields → P (VStruct ty fields).
Hypothesis Hmap : ∀ ty entries, Forall (λ e, P e.2) entries → P (VMap ty entries).

Lemma GoValue_nested_ind : ∀ v, P v.
Proof.
  fix IH 1. intros [ty b|ty n|ty s|ty|ty elem|ty elems|ty fields|ty entries].
  - apply Hbool.
  - apply Hint.
  - apply Hstring.
  - apply Hnil.
  - apply Hptr, IH.
  - apply Hslice. induction elems as [|x l IHl]; constructor; [apply IH|apply IHl].
  - apply Hstruct. induction fields as [|[n x] l IHl]; constructor; [apply IH|apply IHl].
  - apply Hmap. induction entries as [|[k x] l IHl]; constructor; [apply IH|apply IHl].
Qed.
End GoValue_induction.

Lemma MapIndex_elem_of {A} (entries : list (string * A)) k v :
  MapIndex entries k = Some v → (k, v) ∈ entries.
Proof.
  induction entries as [|[k' v'] l IH]; simpl; [done|].
  case_decide; [intros [= ->]; subst; left|right; auto].
Qed.

Lemma MapIndex_NoDup {A} (entries : list (string * A)) k v :
  NoDup entries.*1 → (k, v) ∈ entries → MapIndex entries k = Some v.
Proof.
  induction entries as [|[k' v'] l IH]; simpl; [by intros _ ?%elem_of_nil|].
  intros [Hk Hl]%NoDup_cons [[= -> ->]|Hin]%elem_of_cons.
  - by rewrite decide_True.
  - rewrite decide_False; [auto|]. intros ->. apply Hk.
    apply list_elem_of_fmap. by exists (k, v).
Qed.

#[local] Instance keyLe_trans : Transitive spew.keyLe.
Proof. intros a b c. unfold spew.keyLe. apply transitivity. Qed.

#[local] Instance keyLe_total : Total spew.keyLe.
Proof. intros a b. unfold spew.keyLe. apply total, _. Qed.

(** Sorting the entries of a map does not depend on the order they come in. *)
Lemma sortValues_Permutation l1 l2 :
  NoDup l1.*1 → l1 ≡ₚ l2 → spew.sortValues l1 = spew.sortValues l2.
Proof.
  intros Hnd Hperm. unfold spew.sortValues.
  apply (Sorted_unique_strong spew.keyLe).
  - intros [k1 s1] [k2 s2] H1 H2 Hle1 Hle2.
    rewrite merge_sort_Permutation in H1, H2. rewrite <-Hperm in H2.
    assert (k1 = k2) as -> by (by apply (anti_symm String.le)).
    f_equal. apply (MapIndex_NoDup _ _ _ Hnd) in H1, H2. congruence.
  - apply Sorted_merge_sort, _.
  - apply Sorted_merge_sort, _.
  - by rewrite !merge_sort_Permutation.
Qed.

Lemma fmap_fst_printed (f : GoValue → string) (entries : list (string * GoValue)) :
  (map (λ e, (e.1, f e.2)) entries).*1 = entries.*1.
Proof. induction entries as [|[k v] l IH]; simpl; by f_equal. Qed.

Lemma DeepEqual_slice_format ig (l1 l2 : list GoValue) :
  Forall (λ x, ∀ ig y, validValue x = true → validValue y = true →
                       DeepEqual x y = true → spew.format ig x = spew.format ig y) l1 →
  forallb validValue l1 = true → forallb validValue l2 = true →
  (fix elems (l1 l2 : list GoValue) : bool :=
     match l1, l2 with
     | [], [] => true
     | a :: l1', b :: l2' => DeepEqual a b && elems l1' l2'
     | _, _ => false
     end) l1 l2 = true →
  map (spew.format ig) l1 = map (spew.format ig) l2.
Proof.
  intros IH. revert l2. induction IH as [|x l1 Hx _ IHl]; intros [|y l2]; simpl; try done.
  intros [??]%andb_true_iff [??]%andb_true_iff [??]%andb_true_iff.
  f_equal; auto.
Qed.

Lemma DeepEqual_struct_format (l1 l2 : list (string * GoValue)) :
  Forall (λ f, ∀ ig y, validValue f.2 = true → validValue y = true →
                       DeepEqual f.2 y = true → spew.format ig f.2 = spew.format ig y) l1 →
  forallb (λ f, validValue f.2) l1 = true → forallb (λ f, validValue f.2) l2 = true →
  (fix fields (l1 l2 : list (string * GoValue)) : bool :=
     match l1, l2 with
     | [], [] => true
     | a :: l1', b :: l2' =>
         bool_decide (a.1 = b.1) && DeepEqual a.2 b.2 && fields l1' l2'
     | _, _ => false
     end) l1 l2 = true →
  map (λ f, spew.entry (f.1, spew.format false f.2)) l1
  = map (λ f, spew.entry (f.1, spew.format false f.2)) l2.
Proof.
  intros IH. revert l2. induction IH as [|x l1 Hx _ IHl]; intros [|y l2]; simpl; try done.
  intros [??]%andb_true_iff [??]%andb_true_iff [[Hn%bool_decide_eq_true ?]%andb_true_iff ?]%andb_true_iff.
  f_equal; [|auto]. rewrite Hn. f_equal. f_equal. auto.
Qed.

Lemma DeepEqual_map_format (e1 e2 : list (string * GoValue)) :
  Forall (λ e, ∀ ig y, validValue e.2 = true → validValue y = true →
                       DeepEqual e.2 y = true → spew.format ig e.2 = spew.format ig y) e1 →
  NoDup e1.*1 → forallb (λ e, validValue e.2) e1 = true →
  forallb (λ e, validValue e.2) e2 = true →
  length e1 = length e2 →
  forallb (λ kv, match MapIndex e2 kv.1 with
                 | Some w => DeepEqual kv.2 w
                 | None => false
                 end) e1 = true →
  map (λ e, (e.1, spew.format true e.2)) e1 ≡ₚ map (λ e, (e.1, spew.format true e.2)) e2.
Proof.
  intros IH Hnd Hv1 Hv2 Hlen Heq.
  apply submseteq_length_Permutation; [|by rewrite !length_map, Hlen].
  apply NoDup_submseteq.
  { apply (NoDup_fmap_1 fst). by rewrite fmap_fst_printed. }
  intros [k s] ([k' v] & [= -> ->] & Hin)%list_elem_of_fmap. simpl.
  rewrite Forall_forall in IH. rewrite forallb_forall in Hv1, Hv2, Heq.
  setoid_rewrite <-list_elem_of_In in Hv1. setoid_rewrite <-list_elem_of_In in Hv2.
  setoid_rewrite <-list_elem_of_In in Heq.
  specialize (Heq _ Hin). simpl in Heq.
  destruct (MapIndex e2 k') as [w|] eqn:Hw; [|done].
  apply MapIndex_elem_of in Hw.
  apply list_elem_of_fmap. exists (k', w). split; [|done]. simpl. f_equal.
  apply (IH _ Hin); [apply (Hv1 _ Hin)|apply (Hv2 _ Hw)|done].
Qed.

Lemma format_DeepEqual x : ∀ ig y,
  validValue x = true → validValue y = true → DeepEqual x y = true →
  spew.format ig x = spew.format ig y.
Proof.
  induction x as [ty b|ty n|ty s|ty|ty elem IH|ty elems IH|ty fields IH|ty entries IH]
    using GoValue_nested_ind; intros ig [] Hx Hy Heq; simpl in *; try done.
  - apply andb_true_iff in Heq as [->%bool_decide_eq_true ->%bool_decide_eq_true]. done.
  - apply andb_true_iff in Heq as [->%bool_decide_eq_true ->%bool_decide_eq_true]. done.
  - apply andb_true_iff in Heq as [->%bool_decide_eq_true ->%bool_decide_eq_true]. done.
  - apply bool_decide_eq_true in Heq as ->. done.
  - apply andb_true_iff in Heq as [->%bool_decide_eq_true Heq].
    f_equal. by apply IH.
  - apply andb_true_iff in Heq as [->%bool_decide_eq_true Heq].
    by rewrite (DeepEqual_slice_format true elems elems0).
  - apply andb_true_iff in Heq as [->%bool_decide_eq_true Heq].
    by rewrite (DeepEqual_struct_format fields fields0).
  - apply andb_true_iff in Heq as [[->%bool_decide_eq_true Hlen%bool_decide_eq_true]%andb_true_iff Heq].
    apply andb_true_iff in Hx as [Hnd%bool_decide_eq_true Hx].
    apply andb_true_iff in Hy as [_ Hy].
    rewrite (sortValues_Permutation _ (map (λ e, (e.1, spew.format true e.2)) entries0)); [done| |].
    + by rewrite fmap_fst_printed.
    + by apply DeepEqual_map_format.
Qed.

Lemma DeepEqual_refl x : validValue x = true → DeepEqual x x = true.
Proof.
  induction x as [ty b|ty n|ty s|ty|ty elem IH|ty elems IH|ty fields IH|ty entries IH]
    using GoValue_nested_ind; simpl; intros Hx;
    rewrite ?bool_decide_eq_true_2 by done; simpl; auto.
  - induction IH as [|x l Hx' _ IHl]; simpl in *; [done|].
    apply andb_true_iff in Hx as [??]. apply andb_true_iff; auto.
  - induction IH as [|x l Hx' _ IHl]; simpl in *; [done|].
    apply andb_true_iff in Hx as [??].
    rewrite bool_decide_eq_true_2 by done. apply andb_true_iff; auto.
  - apply andb_true_iff in Hx as [Hnd%bool_decide_eq_true Hx].
    rewrite Forall_forall in IH. rewrite forallb_forall in Hx. apply forallb_forall.
    intros [k v] Hin%list_elem_of_In. simpl.
    rewrite (MapIndex_NoDup _ _ _ Hnd Hin).
    apply (IH _ Hin), (Hx (k, v)). by apply list_elem_of_In.
Qed.

(** Reordering the entries of a map does not change its hash. *)
Lemma computeHash_map_Permutation ty (e1 e2 : list (string * GoValue)) :
  NoDup e1.*1 → e1 ≡ₚ e2 → computeHash (VMap ty e1) = computeHash (VMap ty e2).
Proof.
  intros Hnd Hperm. unfold computeHash, deepHashObject, spew.Fprintf. simpl.
  rewrite (sortValues_Permutation _ (map (λ e, (e.1, spew.format true e.2)) e2)); [done| |].
  - by rewrite fmap_fst_printed.
  - by apply Permutation_map.
Qed.

(** ** The sync handler *)

Lemma pretty_N_go_nonempty (x : N) (s : string) : s ≠ "" → pretty_N_go x s ≠ "".
Proof.
  revert s. induction (N.lt_wf_0 x) as [x _ IH]; intros s Hs.
  destruct (decide (0 < x)%N) as [Hx|Hx].
  - rewrite pretty_N_go_step by done. apply IH; [|done].
    apply N.div_lt; lia.
  - assert (x = 0%N) as -> by lia. by rewrite pretty_N_go_0.
Qed.

Lemma pretty_N_nonempty (x : N) : pretty x ≠ "".
Proof.
  unfold pretty, pretty_N. case_decide; [done|].
  destruct (decide (0 < x)%N) as [Hx|Hx]; [|lia].
  rewrite pretty_N_go_step by done. by apply pretty_N_go_nonempty.
Qed.

Lemma pretty_Z_nonempty (x : Z) : pretty x ≠ "".
Proof.
  unfold pretty, pretty_Z. destruct x; simpl; try done.
  all: try apply pretty_N_nonempty.
Qed.

Lemma SafeEncodeString_nonempty s : s ≠ "" → rand.SafeEncodeString s ≠ "".
Proof. by destruct s. Qed.

Lemma computeHash_nonempty obj : computeHash obj ≠ "".
Proof. apply SafeEncodeString_nonempty, pretty_Z_nonempty. Qed.

Lemma HasString_elem_of slice str :
  sliceutil.HasString slice str = true ↔ str ∈ slice.
Proof.
  unfold sliceutil.HasString. rewrite existsb_exists.
  setoid_rewrite bool_decide_eq_true. setoid_rewrite <-list_elem_of_In.
  split; [by intros (s & ? & ->)|eauto].
Qed.

Lemma HasString_hasFinalizer pipeline :
  sliceutil.HasString (Finalizers (Meta pipeline)) devopsv1alpha3.PipelineFinalizerName
  = bool_decide (hasFinalizer pipeline).
Proof.
  unfold hasFinalizer. apply eq_true_iff_eq.
  by rewrite HasString_elem_of, bool_decide_eq_true.
Qed.

Ltac unfold_flow :=
  unfold mbind, M_bind, mret, M_ret, leave, perform in *; simpl in *.

Lemma syncHandler_resolves c key nsName name namespace pipeline :
  resolves c key nsName name namespace pipeline →
  syncHandler c key
  = run (copyPipeline ← reconcile c nsName pipeline;
         persist c nsName pipeline copyPipeline).
Proof.
  intros (Hkey & Hns & Hadmin & Hp).
  unfold syncHandler, syncHandlerBody. by rewrite Hkey, Hns, Hadmin, Hp.
Qed.

(** The hash test of the live branch is the fast path of the spec. *)
Lemma fastPath_test pipeline :
  fastPath pipeline ↔
  ∃ state, annotations pipeline !! devopsv1alpha3.PipelineSyncStatusAnnoKey = Some state ∧
    state = modelsdevops.StatusSuccessful ∧
    computeHash (Spec pipeline)
    = default "" (annotations pipeline !! devopsv1alpha3.PipelineSpecHash).
Proof.
  unfold fastPath. split.
  - intros [Hs Hh]. exists modelsdevops.StatusSuccessful. by rewrite Hh.
  - intros (state & Hs & -> & Hh). split; [done|].
    destruct (annotations pipeline !! devopsv1alpha3.PipelineSpecHash) as [h|]; simpl in *.
    + by rewrite Hh.
    + by destruct (computeHash_nonempty _ Hh).
Qed.

Lemma annotations_nil_guard pipeline :
  annotations (match Annotations (Meta pipeline) with
               | None => setAnnotations pipeline (Some ∅)
               | Some _ => pipeline
               end) = annotations pipeline.
Proof.
  unfold annotations. destruct (Annotations (Meta pipeline)) eqn:E; simpl; by rewrite ?E.
Qed.

Lemma reconcile_fastPath c nsName pipeline trace :
  live pipeline → fastPath pipeline →
  reconcile c nsName pipeline trace = (Return None, trace).
Proof.
  intros Hlive [Hs Hh]. unfold reconcile, DeepCopy. rewrite Hlive.
  unfold_flow. rewrite annotations_nil_guard, Hs.
  rewrite bool_decide_eq_true_2 by done.
  destruct (Annotations (Meta pipeline)) eqn:Ha; simpl;
    unfold annotations in *; simpl; rewrite ?Ha in *; simpl in *.
  - rewrite Hh. simpl. by rewrite bool_decide_eq_true_2.
  - done.
Qed.

Ltac case_finalizer :=
  match goal with
  | |- context [sliceutil.HasString ?l ?f] =>
      let HF := fresh "HF" in
      destruct (sliceutil.HasString l f) eqn:HF; simpl;
      [apply HasString_elem_of in HF
      |apply not_true_iff_false in HF; rewrite HasString_elem_of in HF]
  end.

Ltac case_answers :=
  repeat (match goal with
          | |- context [match ?r with Ok _ => _ | Err _ => _ end] => destruct r
          | |- context [if DeepEqual ?a ?b then _ else _] => destruct (DeepEqual a b)
          end; simpl).

Lemma reconcile_live c nsName pipeline trace :
  live pipeline → ¬ fastPath pipeline →
  reconcile c nsName pipeline trace = remoteSync c nsName pipeline trace.
Proof.
  intros Hlive Hslow. unfold reconcile, DeepCopy. rewrite Hlive.
  rewrite fastPath_test in Hslow.
  unfold remoteSync, synced, prepared, hasFinalizer, annotate. cbv zeta.
  unfold_flow. rewrite annotations_nil_guard.
  assert (Spec match Annotations (Meta pipeline) with
               | Some _ => pipeline
               | None => setAnnotations pipeline (Some ∅)
               end = Spec pipeline) as -> by (by destruct (Annotations (Meta pipeline))).
  destruct (annotations pipeline !! devopsv1alpha3.PipelineSyncStatusAnnoKey)
    as [state|] eqn:Hs; [destruct (decide (state = modelsdevops.StatusSuccessful)) as [->|Hne]|].
  - rewrite bool_decide_eq_true_2 by done.
    rewrite bool_decide_eq_false_2 by (intros Hh; apply Hslow; eauto).
    destruct (decide (Some modelsdevops.StatusSuccessful = Some modelsdevops.StatusSuccessful))
      as [_|?]; [|done].
    destruct pipeline as [[name ns rv dt [anns|] fins] spec]; unfold annotations in *; simpl in *.
    all: case_finalizer; simpl in *; case_decide; try contradiction;
      unfold setAnnotations, setFinalizers; simpl; case_answers; rewrite <-?(assoc_L (++)); reflexivity.
  - rewrite bool_decide_eq_false_2 by done.
    destruct (decide (_ = Some modelsdevops.StatusSuccessful)) as [?|_]; [by simplify_eq|].
    destruct pipeline as [[name ns rv dt [anns|] fins] spec]; unfold annotations in *; simpl in *.
    all: case_finalizer; simpl in *; case_decide; try contradiction;
      unfold setAnnotations, setFinalizers; simpl; case_answers; rewrite <-?(assoc_L (++)); reflexivity.
  - destruct (decide (_ = Some modelsdevops.StatusSuccessful)) as [?|_]; [done|].
    destruct pipeline as [[name ns rv dt [anns|] fins] spec]; unfold annotations in *; simpl in *.
    all: case_finalizer; simpl in *; case_decide; try contradiction;
      unfold setAnnotations, setFinalizers; simpl; case_answers; rewrite <-?(assoc_L (++)); reflexivity.
Qed.

Lemma delSuccess_confirmed r : delSuccess r = true ↔ DeleteConfirmed r.
Proof.
  split.
  - destruct r as [name|[]]; simpl; try done.
    + intros _. constructor.
    + intros ->%bool_decide_eq_true. constructor.
    + intros ->%bool_decide_eq_true. constructor.
  - by intros [].
Qed.

Lemma released_no_finalizer pipeline : ¬ hasFinalizer (released pipeline).
Proof.
  unfold hasFinalizer, released, sliceutil.RemoveString. simpl.
  rewrite list_elem_of_In, filter_In, negb_true_iff, bool_decide_eq_false.
  by intros [_ ?].
Qed.

Lemma reconcile_deleting c nsName pipeline trace :
  ¬ live pipeline →
  reconcile c nsName pipeline trace =
    if decide (hasFinalizer pipeline) then
      let call := CallDeleteProjectPipeline nsName (Name (Meta pipeline)) in
      if delSuccess (DeleteProjectPipeline (devopsClient c) nsName (Name (Meta pipeline)))
      then (Continue (released pipeline), trace ++ [call])
      else (Return (Some errFinalizer), trace ++ [call])
    else (Continue pipeline, trace).
Proof.
  intros Hdel%not_true_is_false. unfold reconcile, DeepCopy. rewrite Hdel.
  rewrite HasString_hasFinalizer. unfold_flow.
  case_bool_decide; [rewrite decide_True by done|by rewrite decide_False].
  by destruct (delSuccess _).
Qed.

Lemma persist_run c nsName pipeline copyPipeline trace :
  persist c nsName pipeline copyPipeline trace =
    if DeepEqualPipeline pipeline copyPipeline then (Continue None, trace)
    else
      let call := CallPipelinesUpdate nsName copyPipeline in
      match kubesphereClient c nsName copyPipeline with
      | Ok _ => (Continue None, trace ++ [call])
      | Err err => (Return (Some err), trace ++ [call])
      end.
Proof.
  unfold persist. destruct (DeepEqualPipeline _ _); simpl; [done|].
  unfold_flow. by destruct (kubesphereClient _ _ _).
Qed.

Lemma storeWrites_app t1 t2 : storeWrites (t1 ++ t2) = storeWrites t1 ++ storeWrites t2.
Proof. unfold storeWrites. apply omap_app. Qed.

Lemma remoteCalls_app t1 t2 : remoteCalls (t1 ++ t2) = remoteCalls t1 ++ remoteCalls t2.
Proof. unfold remoteCalls. apply List.filter_app. Qed.

(** The copy of a live pipeline always differs from the original when the
    fast path does not apply: either sync-status or spec-hash changes. *)
Lemma synced_differs pipeline :
  ¬ fastPath pipeline → DeepEqualPipeline pipeline (synced pipeline) = false.
Proof.
  intros Hslow. unfold DeepEqualPipeline.
  rewrite bool_decide_eq_false_2; [done|]. intros Heq. apply Hslow.
  assert (Annotations (Meta pipeline) = Annotations (Meta (synced pipeline))) as Ha
    by (by rewrite <-Heq).
  clear Heq. unfold synced, annotate, prepared, fastPath in *.
  unfold annotations in *. simpl in *.
  destruct (Annotations (Meta pipeline)) as [m|]; [|done]. simpl in *.
  injection Ha as Ha.
  assert (m !! devopsv1alpha3.PipelineSyncStatusAnnoKey = Some modelsdevops.StatusSuccessful)
    as Hs by (by rewrite Ha, lookup_insert_eq).
  split; [done|]. rewrite decide_True in Ha by done.
  rewrite Ha, lookup_insert_ne by done. by rewrite lookup_insert_eq.
Qed.

Lemma released_differs pipeline :
  hasFinalizer pipeline → DeepEqualPipeline pipeline (released pipeline) = false.
Proof.
  intros Hfin. unfold DeepEqualPipeline.
  rewrite bool_decide_eq_false_2; [done|]. intros Heq.
  apply (released_no_finalizer pipeline). unfold hasFinalizer in *. by rewrite <-Heq.
Qed.

Lemma prepared_hasFinalizer pipeline : hasFinalizer (prepared pipeline).
Proof.
  unfold hasFinalizer, prepared. simpl. case_decide; [done|].
  apply elem_of_app. right. by left.
Qed.

(** The handler on a live pipeline off the fast path: the remote sync,
    then the write of the synced copy. *)
Lemma syncHandler_live c key nsName name namespace pipeline :
  resolves c key nsName name namespace pipeline →
  live pipeline → ¬ fastPath pipeline →
  syncHandler c key =
    match remoteSync c nsName pipeline [] with
    | (Continue _, trace) =>
        match kubesphereClient c nsName (synced pipeline) with
        | Ok _ => (None, trace ++ [CallPipelinesUpdate nsName (synced pipeline)])
        | Err err => (Some err, trace ++ [CallPipelinesUpdate nsName (synced pipeline)])
        end
    | (Return err, trace) => (err, trace)
    end.
Proof.
  intros Hres Hlive Hslow. rewrite (syncHandler_resolves _ _ _ _ _ _ Hres).
  unfold run, mbind, M_bind. rewrite reconcile_live by done.
  unfold remoteSync. simpl.
  destruct (GetProjectPipelineConfig _ _ _) as [j|e]; simpl.
  - destruct (DeepEqual _ _); simpl;
      [|destruct (UpdateProjectPipeline _ _ _); simpl; [|done]];
      rewrite persist_run, synced_differs by done; simpl;
      by destruct (kubesphereClient _ _ _).
  - destruct (CreateProjectPipeline _ _ _); simpl; [|done].
    rewrite persist_run, synced_differs by done; simpl.
    by destruct (kubesphereClient _ _ _).
Qed.

Lemma reconcile_continue c nsName pipeline copy trace :
  reconcile c nsName pipeline [] = (Continue copy, trace) →
  storeWrites trace = [] ∧
  (copy = synced pipeline ∨ copy = released pipeline ∨ copy = pipeline).
Proof.
  destruct (decide (live pipeline)) as [Hlive|Hdel].
  - destruct (decide (fastPath pipeline)) as [Hfast|Hslow].
    { by rewrite reconcile_fastPath. }
    rewrite reconcile_live by done. unfold remoteSync. intros Hrun.
    repeat match type of Hrun with
           | context [match ?r with Ok _ => _ | Err _ => _ end] => destruct r
           | context [if DeepEqual ?a ?b then _ else _] => destruct (DeepEqual a b)
           end; simplify_eq; auto.
  - rewrite reconcile_deleting by done. simpl. intros Hrun.
    case_decide; [destruct (delSuccess _)|]; simplify_eq; auto.
Qed.

Lemma ineligible_not_admin namespace :
  ineligible namespace ↔ isDevOpsProjectAdminNamespace namespace = false.
Proof.
  unfold ineligible, isDevOpsProjectAdminNamespace, k8sutil.IsControlledBy.
  rewrite andb_false_iff, bool_decide_eq_false, <-eq_None_not_Some.
  rewrite <-not_true_iff_false, existsb_exists.
  setoid_rewrite andb_true_iff. setoid_rewrite orb_true_iff.
  setoid_rewrite bool_decide_eq_true. setoid_rewrite <-list_elem_of_In.
  split; (intros [?|Hno]; [by left|right]); intros (owner & ? & ?); apply Hno;
    exists owner; intuition.
Qed.

Lemma observe_nil c client' :
  devOpsProjectLister (observe c [] client') = devOpsProjectLister c ∧
  namespaceLister (observe c [] client') = namespaceLister c.
Proof. done. Qed.

(** C1.  On a resource with the deletion marker and the controller's
    finalizer tag, the handler calls the remote delete once.  The tag is
    taken off the copy exactly when the delete returned success or a
    not-found response, and the copy is then handed to the store; on any
    other failure the handler returns an error with nothing written back,
    so the stored resource keeps the tag and the key is requeued. *)
Theorem finalizer_removed_iff_delete_confirmed c key nsName name namespace pipeline :
  resolves c key nsName name namespace pipeline →
  ¬ live pipeline →
  hasFinalizer pipeline →
  let deleted := DeleteProjectPipeline (devopsClient c) nsName (Name (Meta pipeline)) in
  let call := CallDeleteProjectPipeline nsName (Name (Meta pipeline)) in
  (DeleteConfirmed deleted ↔
     ∃ copy trace, reconcile c nsName pipeline [] = (Continue copy, trace) ∧
                   ¬ hasFinalizer copy) ∧
  (DeleteConfirmed deleted →
     reconcile c nsName pipeline [] = (Continue (released pipeline), [call]) ∧
     (syncHandler c key).2 = [call; CallPipelinesUpdate nsName (released pipeline)]) ∧
  (¬ DeleteConfirmed deleted →
     syncHandler c key = (Some errFinalizer, [call]) ∧
     storeWrites (syncHandler c key).2 = [] ∧
     processNextWorkItem c key = [AddRateLimited key; Done key]).
Proof.
  intros Hres Hdel Hfin deleted call.
  rewrite (syncHandler_resolves _ _ _ _ _ _ Hres). unfold processNextWorkItem.
  rewrite (syncHandler_resolves _ _ _ _ _ _ Hres).
  unfold run, mbind, M_bind. rewrite reconcile_deleting by done.
  rewrite decide_True by done. cbv zeta. fold deleted call.
  rewrite <-delSuccess_confirmed. destruct (delSuccess deleted); simpl.
  - split; [|split; [|done]].
    + split; [|done]. intros _. eexists _, _. split; [done|]. apply released_no_finalizer.
    + intros _. split; [done|]. rewrite persist_run, released_differs by done. simpl.
      by destruct (kubesphereClient _ _ _).
  - split; [|split; [done|]].
    + split; [done|]. by intros (? & ? & ? & _).
    + done.
Qed.

Lemma finalizer_removed_iff_delete_confirmed_witness :
  resolves (Examples.cluster Examples.deleting (Examples.failing 500)) "proj/p" "proj" "p"
    Examples.project Examples.deleting ∧
  ¬ live Examples.deleting ∧
  hasFinalizer Examples.deleting ∧
  syncHandler (Examples.cluster Examples.deleting (Examples.failing 500)) "proj/p"
  = (Some errFinalizer, [CallDeleteProjectPipeline "proj" "p"]).
Proof.
  assert (resolves (Examples.cluster Examples.deleting (Examples.failing 500))
            "proj/p" "proj" "p" Examples.project Examples.deleting) as Hres
    by (repeat split; reflexivity).
  assert (¬ live Examples.deleting) as Hdel by (unfold live; simpl; discriminate).
  assert (hasFinalizer Examples.deleting) as Hfin by (unfold hasFinalizer; simpl; by left).
  split; [exact Hres|]. split; [exact Hdel|]. split; [exact Hfin|].
  apply (finalizer_removed_iff_delete_confirmed _ _ _ _ _ _ Hres Hdel Hfin).
  simpl. inversion 1.
Defined.

(** C2 (as amended).  For a live, eligible resource off the fast path whose
    remote read fails, one invocation reads, calls create with the prepared
    copy and, when create succeeds, hands the store a copy with sync-status
    successful.  The spec-hash of that copy is the hash of the spec only if
    the resource already carried sync-status successful; otherwise the
    spec-hash annotation is what it was. *)
Theorem create_marks_synced c key nsName name namespace pipeline err reply :
  resolves c key nsName name namespace pipeline →
  live pipeline →
  ¬ fastPath pipeline →
  GetProjectPipelineConfig (devopsClient c) nsName (Name (Meta pipeline)) = Err err →
  CreateProjectPipeline (devopsClient c) nsName (prepared pipeline) = Ok reply →
  (syncHandler c key).2 =
    [CallGetProjectPipelineConfig nsName (Name (Meta pipeline));
     CallCreateProjectPipeline nsName (prepared pipeline);
     CallPipelinesUpdate nsName (synced pipeline)] ∧
  annotations (synced pipeline) !! devopsv1alpha3.PipelineSyncStatusAnnoKey
    = Some modelsdevops.StatusSuccessful ∧
  annotations (synced pipeline) !! devopsv1alpha3.PipelineSpecHash
    = if decide (annotations pipeline !! devopsv1alpha3.PipelineSyncStatusAnnoKey
                 = Some modelsdevops.StatusSuccessful)
      then Some (computeHash (Spec pipeline))
      else annotations pipeline !! devopsv1alpha3.PipelineSpecHash.
Proof.
  intros Hres Hlive Hslow Hget Hcreate.
  rewrite (syncHandler_live _ _ _ _ _ _ Hres Hlive Hslow).
  unfold remoteSync. rewrite Hget, Hcreate. simpl.
  split; [by destruct (kubesphereClient _ _ _)|].
  unfold synced, annotate, prepared, annotations. simpl.
  split; [by rewrite lookup_insert_eq|].
  rewrite lookup_insert_ne by done.
  case_decide; [by rewrite lookup_insert_eq|done].
Qed.

Lemma create_marks_synced_witness :
  resolves (Examples.cluster Examples.created (Examples.failing 404)) "proj/p" "proj" "p"
    Examples.project Examples.created ∧
  live Examples.created ∧
  ¬ fastPath Examples.created ∧
  (syncHandler (Examples.cluster Examples.created (Examples.failing 404)) "proj/p").2 =
    [CallGetProjectPipelineConfig "proj" "p";
     CallCreateProjectPipeline "proj" (prepared Examples.created);
     CallPipelinesUpdate "proj" (synced Examples.created)].
Proof.
  assert (resolves (Examples.cluster Examples.created (Examples.failing 404))
            "proj/p" "proj" "p" Examples.project Examples.created) as Hres
    by (repeat split; reflexivity).
  assert (live Examples.created) as Hlive by reflexivity.
  assert (¬ fastPath Examples.created) as Hslow by (intros [Hs _]; discriminate Hs).
  split; [exact Hres|]. split; [exact Hlive|]. split; [exact Hslow|].
  apply (create_marks_synced _ _ _ _ _ _ (ErrorResponse 404 "jenkins") "p" Hres Hlive Hslow);
    reflexivity.
Defined.

(** C2, counterexample.  A pipeline that was just created, in an eligible
    namespace, with no remote config: the copy handed to the store has no
    spec-hash annotation at all. *)
Lemma created_pipeline_gets_no_spec_hash :
  resolves (Examples.cluster Examples.created (Examples.failing 404)) "proj/p" "proj" "p"
    Examples.project Examples.created ∧
  live Examples.created ∧
  GetProjectPipelineConfig (Examples.failing 404) "proj" "p"
    = Err (ErrorResponse http.StatusNotFound "jenkins") ∧
  ∃ written,
    storeWrites (syncHandler (Examples.cluster Examples.created (Examples.failing 404))
                   "proj/p").2 = [written] ∧
    annotations written !! devopsv1alpha3.PipelineSyncStatusAnnoKey
      = Some modelsdevops.StatusSuccessful ∧
    annotations written !! devopsv1alpha3.PipelineSpecHash = None ∧
    annotations written !! devopsv1alpha3.PipelineSpecHash
      ≠ Some (computeHash (Spec Examples.created)).
Proof.
  split; [repeat split; reflexivity|]. split; [reflexivity|]. split; [reflexivity|].
  eexists. split; [reflexivity|]. split; [reflexivity|]. split; [reflexivity|].
  discriminate.
Qed.

(** C3 (as amended).  In the live branch off the fast path the handler
    reads the remote config and then: when the read fails, for whatever
    reason, it calls create; when the read succeeds and the remote spec is
    not deeply equal to the local one, it calls update; when they are
    deeply equal it makes no further remote call.  A failure of create or
    update is returned as the handler's error, with nothing written back. *)
Theorem remote_sync_branches c key nsName name namespace pipeline :
  resolves c key nsName name namespace pipeline →
  live pipeline →
  ¬ fastPath pipeline →
  let get := CallGetProjectPipelineConfig nsName (Name (Meta pipeline)) in
  let create := CallCreateProjectPipeline nsName (prepared pipeline) in
  let update := CallUpdateProjectPipeline nsName (prepared pipeline) in
  match GetProjectPipelineConfig (devopsClient c) nsName (Name (Meta pipeline)) with
  | Err _ =>
      remoteCalls (syncHandler c key).2 = [get; create] ∧
      ∀ err, CreateProjectPipeline (devopsClient c) nsName (prepared pipeline) = Err err →
             syncHandler c key = (Some err, [get; create])
  | Ok jenkinsPipeline =>
      if DeepEqual (Spec jenkinsPipeline) (Spec pipeline) then
        remoteCalls (syncHandler c key).2 = [get]
      else
        remoteCalls (syncHandler c key).2 = [get; update] ∧
        ∀ err, UpdateProjectPipeline (devopsClient c) nsName (prepared pipeline) = Err err →
               syncHandler c key = (Some err, [get; update])
  end.
Proof.
  intros Hres Hlive Hslow get create update.
  rewrite (syncHandler_live _ _ _ _ _ _ Hres Hlive Hslow).
  unfold remoteSync. fold get create update.
  destruct (GetProjectPipelineConfig _ _ _) as [j|e]; simpl.
  - destruct (DeepEqual _ _); simpl.
    + by destruct (kubesphereClient _ _ _).
    + split; [|by intros err ->].
      destruct (UpdateProjectPipeline _ _ _); simpl; [|done].
      by destruct (kubesphereClient _ _ _).
  - split; [|by intros err ->].
    destruct (CreateProjectPipeline _ _ _); simpl; [|done].
    by destruct (kubesphereClient _ _ _).
Qed.

Lemma remote_sync_branches_witness :
  resolves (Examples.cluster Examples.created (Examples.holding Examples.settled))
    "proj/p" "proj" "p" Examples.project Examples.created ∧
  live Examples.created ∧
  ¬ fastPath Examples.created ∧
  remoteCalls (syncHandler (Examples.cluster Examples.created
                              (Examples.holding Examples.settled)) "proj/p").2
  = [CallGetProjectPipelineConfig "proj" "p"].
Proof.
  assert (resolves (Examples.cluster Examples.created (Examples.holding Examples.settled))
            "proj/p" "proj" "p" Examples.project Examples.created) as Hres
    by (repeat split; reflexivity).
  assert (live Examples.created) as Hlive by reflexivity.
  assert (¬ fastPath Examples.created) as Hslow by (intros [Hs _]; discriminate Hs).
  split; [exact Hres|]. split; [exact Hlive|]. split; [exact Hslow|].
  exact (remote_sync_branches _ _ _ _ _ _ Hres Hlive Hslow).
Defined.

(** C3, counterexample.  The remote read fails with status 500, which is
    not a not-found response; the handler calls create all the same and
    returns no error. *)
Lemma read_failure_leads_to_create :
  GetProjectPipelineConfig (Examples.failing 500) "proj" "p"
    = Err (ErrorResponse 500 "jenkins") ∧
  syncHandler (Examples.cluster Examples.created (Examples.failing 500)) "proj/p"
  = (None, [CallGetProjectPipelineConfig "proj" "p";
            CallCreateProjectPipeline "proj" (prepared Examples.created);
            CallPipelinesUpdate "proj" (synced Examples.created)]).
Proof. split; reflexivity. Qed.

(** C4 (as amended).  On a live resource the spec-hash test comes first.
    When the fast path applies the handler returns success at once, with
    no call and no write, so a missing finalizer tag is not added.  When
    it does not apply, every copy handed to create, to update or to the
    store carries the finalizer tag, and an invocation that returns
    success has written the synced copy back. *)
Theorem finalizer_ensured_off_fast_path c key nsName name namespace pipeline :
  resolves c key nsName name namespace pipeline →
  live pipeline →
  (fastPath pipeline → syncHandler c key = (None, [])) ∧
  (¬ fastPath pipeline →
     (∀ call p, call ∈ (syncHandler c key).2 → carried call = Some p → hasFinalizer p) ∧
     ((syncHandler c key).1 = None →
        storeWrites (syncHandler c key).2 = [synced pipeline])).
Proof.
  intros Hres Hlive. split.
  - intros Hfast. rewrite (syncHandler_resolves _ _ _ _ _ _ Hres).
    unfold run, mbind, M_bind. by rewrite reconcile_fastPath.
  - intros Hslow. rewrite (syncHandler_live _ _ _ _ _ _ Hres Hlive Hslow).
    pose proof (prepared_hasFinalizer pipeline) as Hprep.
    assert (hasFinalizer (synced pipeline)) as Hsync by exact Hprep.
    unfold remoteSync.
    destruct (GetProjectPipelineConfig _ _ _) as [j|e]; simpl;
      [destruct (DeepEqual _ _); simpl;
         [|destruct (UpdateProjectPipeline _ _ _); simpl]
      |destruct (CreateProjectPipeline _ _ _); simpl];
      try destruct (kubesphereClient _ _ _); simpl;
      (split; [|done]); intros call p Hin Hp;
      repeat (apply elem_of_cons in Hin as [->|Hin]; [by simplify_eq/=|]);
      by apply elem_of_nil in Hin.
Qed.

Lemma finalizer_ensured_off_fast_path_witness :
  resolves (Examples.cluster Examples.created (Examples.failing 404)) "proj/p" "proj" "p"
    Examples.project Examples.created ∧
  live Examples.created ∧
  ¬ fastPath Examples.created ∧
  storeWrites
    (syncHandler (Examples.cluster Examples.created (Examples.failing 404)) "proj/p").2
  = [synced Examples.created] ∧
  hasFinalizer (synced Examples.created).
Proof.
  assert (resolves (Examples.cluster Examples.created (Examples.failing 404))
            "proj/p" "proj" "p" Examples.project Examples.created) as Hres
    by (repeat split; reflexivity).
  assert (live Examples.created) as Hlive by reflexivity.
  assert (¬ fastPath Examples.created) as Hslow by (intros [Hs _]; discriminate Hs).
  split; [exact Hres|]. split; [exact Hlive|]. split; [exact Hslow|].
  destruct (finalizer_ensured_off_fast_path _ _ _ _ _ _ Hres Hlive) as [_ Hoff].
  destruct (Hoff Hslow) as [Hcarried Hwritten].
  split; [apply Hwritten; reflexivity|].
  apply (Hcarried (CallPipelinesUpdate "proj" (synced Examples.created))); [|reflexivity].
  right. right. left.
Defined.

(** C4, counterexample.  A live resource on the fast path that lacks the
    finalizer tag: the handler returns without any call, the tag is not
    added and nothing is written back. *)
Lemma fast_path_skips_finalizer :
  resolves (Examples.cluster Examples.settled (Examples.holding Examples.settled))
    "proj/p" "proj" "p" Examples.project Examples.settled ∧
  live Examples.settled ∧
  fastPath Examples.settled ∧
  ¬ hasFinalizer Examples.settled ∧
  syncHandler (Examples.cluster Examples.settled (Examples.holding Examples.settled)) "proj/p"
  = (None, []) ∧
  storeWrites
    (syncHandler (Examples.cluster Examples.settled (Examples.holding Examples.settled))
       "proj/p").2 = [].
Proof.
  split; [repeat split; reflexivity|]. split; [reflexivity|].
  split; [split; reflexivity|]. split; [by intros ?%elem_of_nil|].
  split; reflexivity.
Qed.

(** C5.  For a live resource whose sync-status is successful and whose
    stored spec-hash is the hash of its spec, an invocation of the handler
    returns success without a single call: none to the DevOps client and
    none to the store.  A second invocation, on the controller as the
    first one left it and whatever the DevOps service would answer, does
    the same. *)
Theorem fast_path_no_remote_call c key nsName name namespace pipeline :
  resolves c key nsName name namespace pipeline →
  live pipeline →
  fastPath pipeline →
  syncHandler c key = (None, []) ∧
  remoteCalls (syncHandler c key).2 = [] ∧
  ∀ client',
    syncHandler (observe c (syncHandler c key).2 client') key = (None, []) ∧
    remoteCalls (syncHandler (observe c (syncHandler c key).2 client') key).2 = [].
Proof.
  intros Hres Hlive Hfast.
  assert (∀ c', resolves c' key nsName name namespace pipeline →
                syncHandler c' key = (None, [])) as Hrun.
  { intros c' Hres'. rewrite (syncHandler_resolves _ _ _ _ _ _ Hres').
    unfold run, mbind, M_bind. by rewrite reconcile_fastPath. }
  rewrite (Hrun c Hres). split; [done|]. split; [done|]. intros client'. simpl.
  rewrite (Hrun (observe c [] client')); [done|].
  destruct Hres as (? & ? & ? & ?). by repeat split.
Qed.

Lemma fast_path_no_remote_call_witness :
  resolves (Examples.cluster Examples.settled (Examples.failing 500))
    "proj/p" "proj" "p" Examples.project Examples.settled ∧
  live Examples.settled ∧
  fastPath Examples.settled ∧
  syncHandler (Examples.cluster Examples.settled (Examples.failing 500)) "proj/p"
  = (None, []).
Proof.
  assert (resolves (Examples.cluster Examples.settled (Examples.failing 500))
            "proj/p" "proj" "p" Examples.project Examples.settled) as Hres
    by (repeat split; reflexivity).
  assert (live Examples.settled) as Hlive by reflexivity.
  assert (fastPath Examples.settled) as Hfast by (split; reflexivity).
  split; [exact Hres|]. split; [exact Hlive|]. split; [exact Hfast|].
  apply (fast_path_no_remote_call _ _ _ _ _ _ Hres Hlive Hfast).
Defined.

(** C6.  For a key whose namespace is served but lacks the ownership
    label or an owner of the designated kind, the handler returns an
    error and makes no call at all: the DevOps client is never reached
    and nothing is written to the store. *)
Theorem ineligible_namespace_rejected c key nsName name namespace :
  cache.SplitMetaNamespaceKey key = Ok (nsName, name) →
  namespaceLister c nsName = Ok namespace →
  ineligible namespace →
  syncHandler c key = (Some (errNormalNamespace namespace), []) ∧
  remoteCalls (syncHandler c key).2 = [] ∧
  storeWrites (syncHandler c key).2 = [].
Proof.
  intros Hkey Hns Hin%ineligible_not_admin.
  unfold syncHandler, syncHandlerBody. by rewrite Hkey, Hns, Hin.
Qed.

Lemma ineligible_namespace_rejected_witness :
  cache.SplitMetaNamespaceKey "default/p" = Ok ("default", "p") ∧
  namespaceLister (Examples.cluster Examples.created (Examples.failing 404)) "default"
    = Ok Examples.plain ∧
  ineligible Examples.plain ∧
  syncHandler (Examples.cluster Examples.created (Examples.failing 404)) "default/p"
  = (Some (errNormalNamespace Examples.plain), []).
Proof.
  assert (ineligible Examples.plain) as Hin by (left; reflexivity).
  split; [reflexivity|]. split; [reflexivity|]. split; [exact Hin|].
  apply (ineligible_namespace_rejected _ "default/p" "default" "p" Examples.plain);
    [reflexivity|reflexivity|exact Hin].
Defined.

(** C7.  In an invocation that reaches the persistence step, the copy is
    handed to the store exactly when it is not deeply equal to the
    original, and then once.  The copy has the spec of the original, and
    its name, namespace, resource version and deletion timestamp: only
    annotations and finalizers can differ, and on a well-formed spec the
    copy is deeply equal to the original only if it is the original. *)
Theorem write_back_iff_copy_differs c key nsName name namespace pipeline copy trace :
  resolves c key nsName name namespace pipeline →
  reconcile c nsName pipeline [] = (Continue copy, trace) →
  storeWrites (syncHandler c key).2
    = (if DeepEqualPipeline pipeline copy then [] else [copy]) ∧
  Spec copy = Spec pipeline ∧
  Name (Meta copy) = Name (Meta pipeline) ∧
  metaNamespace (Meta copy) = metaNamespace (Meta pipeline) ∧
  ResourceVersion (Meta copy) = ResourceVersion (Meta pipeline) ∧
  DeletionTimestamp (Meta copy) = DeletionTimestamp (Meta pipeline) ∧
  (validValue (Spec pipeline) = true →
   (DeepEqualPipeline pipeline copy = true ↔ copy = pipeline)).
Proof.
  intros Hres Hrun. rewrite (syncHandler_resolves _ _ _ _ _ _ Hres).
  destruct (reconcile_continue _ _ _ _ _ Hrun) as [Hnone Hcopy].
  assert (Spec copy = Spec pipeline) as Hspec by (by destruct Hcopy as [->|[->| ->]]).
  split; [|split; [done|]].
  - unfold run, mbind, M_bind. rewrite Hrun, persist_run.
    destruct (DeepEqualPipeline _ _); simpl; [done|].
    destruct (kubesphereClient _ _ _); simpl; by rewrite storeWrites_app, Hnone.
  - repeat (split; [by destruct Hcopy as [->|[->| ->]]|]).
    intros Hvalid. unfold DeepEqualPipeline. rewrite Hspec, DeepEqual_refl, andb_true_r by done.
    rewrite bool_decide_eq_true. split; [|by intros ->].
    destruct copy, pipeline; simpl in *. by intros ->; subst.
Qed.

Lemma write_back_iff_copy_differs_witness :
  resolves (Examples.cluster Examples.deleting (Examples.holding Examples.created))
    "proj/p" "proj" "p" Examples.project Examples.deleting ∧
  reconcile (Examples.cluster Examples.deleting (Examples.holding Examples.created))
    "proj" Examples.deleting []
  = (Continue (released Examples.deleting), [CallDeleteProjectPipeline "proj" "p"]) ∧
  storeWrites
    (syncHandler (Examples.cluster Examples.deleting (Examples.holding Examples.created))
       "proj/p").2
  = [released Examples.deleting].
Proof.
  assert (resolves (Examples.cluster Examples.deleting (Examples.holding Examples.created))
            "proj/p" "proj" "p" Examples.project Examples.deleting) as Hres
    by (repeat split; reflexivity).
  split; [exact Hres|]. split; [reflexivity|].
  apply (write_back_iff_copy_differs _ _ _ _ _ _ _ _ Hres eq_refl).
Defined.

(** C8.  When the namespace of the key is not found, and when the
    namespace is eligible but the pipeline is not found, the handler
    returns nil without any remote call or store write, and the work queue
    forgets the key instead of requeuing it. *)
Theorem not_found_is_dropped c key nsName name :
  cache.SplitMetaNamespaceKey key = Ok (nsName, name) →
  (∃ err, namespaceLister c nsName = Err err ∧ errors.IsNotFound err = true) ∨
  (∃ namespace err,
      namespaceLister c nsName = Ok namespace ∧
      isDevOpsProjectAdminNamespace namespace = true ∧
      devOpsProjectLister c nsName name = Err err ∧ errors.IsNotFound err = true) →
  syncHandler c key = (None, []) ∧
  remoteCalls (syncHandler c key).2 = [] ∧
  storeWrites (syncHandler c key).2 = [] ∧
  processNextWorkItem c key = [Forget key; Done key].
Proof.
  intros Hkey Hmissing.
  assert (syncHandler c key = (None, [])) as Hrun.
  { unfold syncHandler, syncHandlerBody. rewrite Hkey.
    destruct Hmissing as [(err & -> & ->)|(namespace & err & -> & -> & -> & ->)]; done. }
  unfold processNextWorkItem. by rewrite Hrun.
Qed.

Lemma not_found_is_dropped_witness :
  cache.SplitMetaNamespaceKey "gone/p" = Ok ("gone", "p") ∧
  namespaceLister (Examples.cluster Examples.created (Examples.failing 404)) "gone"
    = Err Examples.notFound ∧
  errors.IsNotFound Examples.notFound = true ∧
  syncHandler (Examples.cluster Examples.created (Examples.failing 404)) "gone/p"
  = (None, []).
Proof.
  split; [reflexivity|]. split; [reflexivity|]. split; [reflexivity|].
  apply (not_found_is_dropped _ "gone/p" "gone" "p"); [reflexivity|].
  left. exists Examples.notFound. split; reflexivity.
Defined.

(** C9.  Two well-formed spec values with the same content, that is two
    values [reflect.DeepEqual] holds of, whatever the order their maps
    hand out their entries in, have the same hash. *)
Theorem computeHash_order_independent (S1 S2 : GoValue) :
  validValue S1 = true → validValue S2 = true → DeepEqual S1 S2 = true →
  computeHash S1 = computeHash S2.
Proof.
  intros H1 H2 Heq. unfold computeHash, deepHashObject, spew.Fprintf.
  by rewrite (format_DeepEqual S1 false S2).
Qed.

Lemma computeHash_order_independent_witness :
  validValue (Examples.labelled Examples.labelsAB) = true ∧
  validValue (Examples.labelled Examples.labelsBA) = true ∧
  DeepEqual (Examples.labelled Examples.labelsAB) (Examples.labelled Examples.labelsBA) = true ∧
  Examples.labelsAB ≠ Examples.labelsBA ∧
  computeHash (Examples.labelled Examples.labelsAB)
  = computeHash (Examples.labelled Examples.labelsBA).
Proof.
  split; [vm_compute; reflexivity|]. split; [vm_compute; reflexivity|].
  split; [vm_compute; reflexivity|]. split; [discriminate|].
  apply computeHash_order_independent; vm_compute; reflexivity.
Defined.

(** C10.  A key that does not split into a namespace and a name makes the
    handler return nil without any call, and the work queue forgets the
    key: it is not requeued. *)
Theorem malformed_key_is_dropped c key err :
  cache.SplitMetaNamespaceKey key = Err err →
  syncHandler c key = (None, []) ∧
  processNextWorkItem c key = [Forget key; Done key].
Proof.
  intros Hkey.
  assert (syncHandler c key = (None, [])) as Hrun
    by (unfold syncHandler, syncHandlerBody; by rewrite Hkey).
  unfold processNextWorkItem. by rewrite Hrun.
Qed.

Lemma malformed_key_is_dropped_witness :
  cache.SplitMetaNamespaceKey "a/b/c" = Err (errorString "unexpected key format: a/b/c") ∧
  syncHandler (Examples.cluster Examples.created (Examples.failing 404)) "a/b/c"
  = (None, []).
Proof.
  split; [reflexivity|].
  apply (malformed_key_is_dropped _ "a/b/c" (errorString "unexpected key format: a/b/c")).
  reflexivity.
Defined.

(** * Further properties of the handler *)

(** Every invocation either stops before a pipeline is served, without a
    call, or has an eligible namespace and a pipeline to work on. *)
Lemma syncHandler_unresolved c key :
  (∃ nsName name namespace pipeline, resolves c key nsName name namespace pipeline) ∨
  (syncHandler c key).2 = [].
Proof.
  unfold syncHandler, syncHandlerBody, resolves.
  destruct (cache.SplitMetaNamespaceKey key) as [[nsName name]|e]; [|by right].
  destruct (namespaceLister c nsName) as [namespace|e] eqn:Hns;
    [|right; by destruct (errors.IsNotFound e)].
  destruct (isDevOpsProjectAdminNamespace namespace) eqn:Hadmin; [|by right].
  destruct (devOpsProjectLister c nsName name) as [pipeline|e] eqn:Hp;
    [|right; by destruct (errors.IsNotFound e)].
  left. by exists nsName, name, namespace, pipeline.
Qed.

Lemma syncHandler_fastPath c key nsName name namespace pipeline :
  resolves c key nsName name namespace pipeline →
  live pipeline → fastPath pipeline →
  syncHandler c key = (None, []).
Proof.
  intros Hres Hlive Hfast. rewrite (syncHandler_resolves _ _ _ _ _ _ Hres).
  unfold run, mbind, M_bind. by rewrite reconcile_fastPath.
Qed.

(** The handler on a pipeline with the deletion marker. *)
Lemma syncHandler_deleting c key nsName name namespace pipeline :
  resolves c key nsName name namespace pipeline →
  ¬ live pipeline →
  syncHandler c key =
    if decide (hasFinalizer pipeline) then
      let call := CallDeleteProjectPipeline nsName (Name (Meta pipeline)) in
      if delSuccess (DeleteProjectPipeline (devopsClient c) nsName (Name (Meta pipeline)))
      then
        match kubesphereClient c nsName (released pipeline) with
        | Ok _ => (None, [call; CallPipelinesUpdate nsName (released pipeline)])
        | Err err => (Some err, [call; CallPipelinesUpdate nsName (released pipeline)])
        end
      else (Some errFinalizer, [call])
    else if DeepEqualPipeline pipeline pipeline then (None, [])
    else
      match kubesphereClient c nsName pipeline with
      | Ok _ => (None, [CallPipelinesUpdate nsName pipeline])
      | Err err => (Some err, [CallPipelinesUpdate nsName pipeline])
      end.
Proof.
  intros Hres Hdel. rewrite (syncHandler_resolves _ _ _ _ _ _ Hres).
  unfold run, mbind, M_bind. rewrite reconcile_deleting by done.
  case_decide as Hfin; simpl.
  - destruct (delSuccess _); simpl; [|done].
    rewrite persist_run, released_differs by done. simpl.
    by destruct (kubesphereClient _ _ _).
  - rewrite persist_run. destruct (DeepEqualPipeline _ _); simpl; [done|].
    by destruct (kubesphereClient _ _ _).
Qed.

Lemma DeepEqualPipeline_refl pipeline :
  validValue (Spec pipeline) = true → DeepEqualPipeline pipeline pipeline = true.
Proof.
  intros Hvalid. unfold DeepEqualPipeline.
  by rewrite bool_decide_eq_true_2, DeepEqual_refl.
Qed.

(** Splits an invocation on a served pipeline into the four ways it can
    go, with the outcome of each in the goal. *)
Ltac handler_cases Hres pipeline :=
  let Hlive := fresh "Hlive" in
  let Hfast := fresh "Hfast" in
  let Hfin := fresh "Hfin" in
  destruct (decide (live pipeline)) as [Hlive|Hlive];
  [destruct (decide (fastPath pipeline)) as [Hfast|Hfast];
   [rewrite (syncHandler_fastPath _ _ _ _ _ _ Hres Hlive Hfast)
   |rewrite (syncHandler_live _ _ _ _ _ _ Hres Hlive Hfast); unfold remoteSync]
  |rewrite (syncHandler_deleting _ _ _ _ _ _ Hres Hlive);
   destruct (decide (hasFinalizer pipeline)) as [Hfin|Hfin]];
  cbv zeta.

(** Case analysis on every answer of the outside world in the goal. *)
Ltac case_world :=
  repeat (match goal with
          | |- context [match ?r with Ok _ => _ | Err _ => _ end] =>
              let E := fresh "Hanswer" in destruct r eqn:E
          | |- context [if DeepEqual ?a ?b then _ else _] => destruct (DeepEqual a b)
          | |- context [if DeepEqualPipeline ?a ?b then _ else _] =>
              destruct (DeepEqualPipeline a b)
          | |- context [if delSuccess ?r then _ else _] =>
              let E := fresh "Hdeleted" in destruct (delSuccess r) eqn:E
          end; simpl).

(** X1.  An error of the namespace lister or of the pipeline lister other
    than not-found is returned as it is, before any call is made, and the
    work queue gets the key back with backoff. *)
Theorem lister_error_is_returned c key nsName name err :
  cache.SplitMetaNamespaceKey key = Ok (nsName, name) →
  errors.IsNotFound err = false →
  namespaceLister c nsName = Err err ∨
  (∃ namespace, namespaceLister c nsName = Ok namespace ∧
                isDevOpsProjectAdminNamespace namespace = true ∧
                devOpsProjectLister c nsName name = Err err) →
  syncHandler c key = (Some err, []) ∧
  processNextWorkItem c key = [AddRateLimited key; Done key].
Proof.
  intros Hkey Herr Hfail.
  assert (syncHandler c key = (Some err, [])) as Hrun.
  { unfold syncHandler, syncHandlerBody. rewrite Hkey.
    destruct Hfail as [->|(namespace & -> & -> & ->)]; simpl; by rewrite Herr. }
  unfold processNextWorkItem. by rewrite Hrun.
Qed.

Lemma lister_error_is_returned_witness :
  cache.SplitMetaNamespaceKey "proj/p" = Ok ("proj", "p") ∧
  errors.IsNotFound (StatusError "InternalError" "cache") = false ∧
  namespaceLister MoreExamples.broken "proj" = Err (StatusError "InternalError" "cache") ∧
  syncHandler MoreExamples.broken "proj/p" = (Some (StatusError "InternalError" "cache"), []).
Proof.
  split; [reflexivity|]. split; [reflexivity|]. split; [reflexivity|].
  apply (lister_error_is_returned MoreExamples.broken "proj/p" "proj" "p");
    [reflexivity|reflexivity|left; reflexivity].
Defined.

(** X2.  On a served pipeline with a well-formed spec the handler makes no
    call at all exactly when there is nothing to do: the pipeline is live
    and on the fast path, or it is marked for deletion and the
    controller's finalizer is already gone.  It then returns nil. *)
Theorem silent_iff_nothing_to_do c key nsName name namespace pipeline :
  resolves c key nsName name namespace pipeline →
  validValue (Spec pipeline) = true →
  ((syncHandler c key).2 = [] ↔
     (live pipeline ∧ fastPath pipeline) ∨ (¬ live pipeline ∧ ¬ hasFinalizer pipeline)) ∧
  ((syncHandler c key).2 = [] → (syncHandler c key).1 = None).
Proof.
  intros Hres Hvalid. handler_cases Hres pipeline.
  - split; [|done]. split; [by left|done].
  - case_world; (split; [|done]); (split; [done|]); intros [[??]|[??]]; done.
  - case_world; (split; [|done]); (split; [done|]); intros [[??]|[??]]; done.
  - rewrite DeepEqualPipeline_refl by done. split; [|done]. split; [by right|done].
Qed.

Lemma silent_iff_nothing_to_do_witness :
  resolves (Examples.cluster MoreExamples.cleaned (Examples.failing 500))
    "proj/p" "proj" "p" Examples.project MoreExamples.cleaned ∧
  validValue (Spec MoreExamples.cleaned) = true ∧
  ¬ live MoreExamples.cleaned ∧
  ¬ hasFinalizer MoreExamples.cleaned ∧
  (syncHandler (Examples.cluster MoreExamples.cleaned (Examples.failing 500)) "proj/p").2 = [].
Proof.
  assert (resolves (Examples.cluster MoreExamples.cleaned (Examples.failing 500))
            "proj/p" "proj" "p" Examples.project MoreExamples.cleaned) as Hres
    by (repeat split; reflexivity).
  assert (validValue (Spec MoreExamples.cleaned) = true) as Hvalid by reflexivity.
  assert (¬ live MoreExamples.cleaned) as Hdel by (unfold live; simpl; discriminate).
  assert (¬ hasFinalizer MoreExamples.cleaned) as Hfin.
  { unfold hasFinalizer. simpl. intros [Heq|Hin%elem_of_nil]%elem_of_cons; [|done].
    discriminate Heq. }
  split; [exact Hres|]. split; [exact Hvalid|]. split; [exact Hdel|]. split; [exact Hfin|].
  apply (silent_iff_nothing_to_do _ _ _ _ _ _ Hres Hvalid). right. by split.
Defined.

(** X3.  The handler stops at the first writing call that fails: when a
    create, an update or the store's update is answered with an error,
    that call is the last of the invocation and the handler returns that
    very error.  An invocation that returns nil has had every writing
    call accepted. *)
Theorem stops_at_first_failed_write c key call err :
  call ∈ (syncHandler c key).2 →
  answeredError c call = Some err →
  (syncHandler c key).1 = Some err ∧ last (syncHandler c key).2 = Some call.
Proof.
  destruct (syncHandler_unresolved c key)
    as [(nsName & name & namespace & pipeline & Hres)| ->]; [|by intros ?%elem_of_nil].
  handler_cases Hres pipeline; case_world; intros Hin Herr;
    repeat (apply elem_of_cons in Hin as [->|Hin];
            [simpl in Herr; rewrite ?Hanswer, ?Hanswer0, ?Hanswer1 in Herr; by simplify_eq|]);
    by apply elem_of_nil in Hin.
Qed.

Lemma stops_at_first_failed_write_witness :
  CallCreateProjectPipeline "proj" (prepared Examples.created)
    ∈ (syncHandler (Examples.cluster Examples.created MoreExamples.refusing) "proj/p").2 ∧
  answeredError (Examples.cluster Examples.created MoreExamples.refusing)
    (CallCreateProjectPipeline "proj" (prepared Examples.created))
    = Some (ErrorResponse 500 "jenkins") ∧
  (syncHandler (Examples.cluster Examples.created MoreExamples.refusing) "proj/p").1
    = Some (ErrorResponse 500 "jenkins") ∧
  storeWrites (syncHandler (Examples.cluster Examples.created MoreExamples.refusing) "proj/p").2
    = [].
Proof.
  assert (CallCreateProjectPipeline "proj" (prepared Examples.created)
            ∈ (syncHandler (Examples.cluster Examples.created MoreExamples.refusing)
                 "proj/p").2) as Hin by (right; left).
  split; [exact Hin|]. split; [reflexivity|].
  split; [|reflexivity].
  apply (stops_at_first_failed_write _ _ _ _ Hin). reflexivity.
Defined.

(** X4.  Whatever the cluster and the key, an invocation makes at most
    two calls to the DevOps client and at most one write to the store,
    and the write, if there is one, is the last call. *)
Theorem at_most_two_calls_then_one_write c key :
  (length (remoteCalls (syncHandler c key).2) ≤ 2)%nat ∧
  (length (storeWrites (syncHandler c key).2) ≤ 1)%nat ∧
  ∀ ns written, CallPipelinesUpdate ns written ∈ (syncHandler c key).2 →
                last (syncHandler c key).2 = Some (CallPipelinesUpdate ns written).
Proof.
  destruct (syncHandler_unresolved c key)
    as [(nsName & name & namespace & pipeline & Hres)| ->];
    [|split; [simpl; lia|split; [simpl; lia|by intros ?? ?%elem_of_nil]]].
  handler_cases Hres pipeline; case_world;
    (split; [simpl; lia|split; [simpl; lia|]]); intros ns written Hin;
    repeat (apply elem_of_cons in Hin as [Heq|Hin]; [by simplify_eq|]);
    by apply elem_of_nil in Hin.
Qed.

(** X5.  The two branches never mix.  On a live pipeline the handler never
    calls the remote delete; on a pipeline marked for deletion its only
    remote call is the delete of that pipeline, made exactly when the
    controller's finalizer is still there. *)
Theorem delete_only_when_marked c key nsName name namespace pipeline :
  resolves c key nsName name namespace pipeline →
  (live pipeline →
     ∀ ns n, CallDeleteProjectPipeline ns n ∉ (syncHandler c key).2) ∧
  (¬ live pipeline →
     remoteCalls (syncHandler c key).2 =
       if decide (hasFinalizer pipeline)
       then [CallDeleteProjectPipeline nsName (Name (Meta pipeline))]
       else []).
Proof.
  intros Hres. handler_cases Hres pipeline.
  - split; [|done]. by intros _ ns n ?%elem_of_nil.
  - split; [|done]. intros _ ns n. case_world; intros Hin;
      repeat (apply elem_of_cons in Hin as [Heq|Hin]; [by simplify_eq|]);
      by apply elem_of_nil in Hin.
  - split; [done|]. intros _. by case_world.
  - split; [done|]. intros _. by case_world.
Qed.

Lemma delete_only_when_marked_witness :
  resolves (Examples.cluster Examples.deleting (Examples.holding Examples.created))
    "proj/p" "proj" "p" Examples.project Examples.deleting ∧
  ¬ live Examples.deleting ∧
  remoteCalls
    (syncHandler (Examples.cluster Examples.deleting (Examples.holding Examples.created))
       "proj/p").2
  = [CallDeleteProjectPipeline "proj" "p"].
Proof.
  assert (resolves (Examples.cluster Examples.deleting (Examples.holding Examples.created))
            "proj/p" "proj" "p" Examples.project Examples.deleting) as Hres
    by (repeat split; reflexivity).
  assert (¬ live Examples.deleting) as Hdel by (unfold live; simpl; discriminate).
  split; [exact Hres|]. split; [exact Hdel|].
  destruct (delete_only_when_marked _ _ _ _ _ _ Hres) as [_ Hmarked].
  rewrite (Hmarked Hdel). reflexivity.
Defined.

Lemma ownMarksOnly_prepared pipeline : ownMarksOnly pipeline (prepared pipeline).
Proof.
  unfold ownMarksOnly, prepared, annotations. simpl. repeat (split; [done|]). split.
  - intros k _ Hk. case_decide; [by rewrite lookup_insert_ne|done].
  - case_decide; [done|]. rewrite filter_app, filter_cons_False, filter_nil by naive_solver.
    by rewrite app_nil_r.
Qed.

Lemma ownMarksOnly_synced pipeline : ownMarksOnly pipeline (synced pipeline).
Proof.
  destruct (ownMarksOnly_prepared pipeline) as (? & ? & ? & ? & ? & Hanns & ?).
  unfold ownMarksOnly, synced, annotate. simpl. repeat (split; [done|]). split; [|done].
  intros k Hs Hh. unfold annotations at 1. simpl.
  rewrite lookup_insert_ne by done. by apply Hanns.
Qed.

Lemma ownMarksOnly_released pipeline : ownMarksOnly pipeline (released pipeline).
Proof.
  unfold ownMarksOnly, released, sliceutil.RemoveString. simpl.
  repeat (split; [done|]).
  induction (Finalizers (Meta pipeline)) as [|f l IH]; simpl; [done|].
  case_bool_decide as Hf; simpl.
  - by rewrite filter_cons_False by naive_solver.
  - by rewrite !filter_cons_True, IH by done.
Qed.

Lemma ownMarksOnly_refl pipeline : ownMarksOnly pipeline pipeline.
Proof. by repeat split. Qed.

(** X6.  Whatever an invocation hands to the DevOps client or to the
    store is the served pipeline up to the controller's own marks: spec,
    name, namespace, resource version and deletion timestamp are kept,
    annotations under other keys are kept, and the finalizers of others
    are kept in their order.  Every call is addressed to the namespace of
    the key and the name of the served pipeline. *)
Theorem calls_carry_own_marks_only c key nsName name namespace pipeline call :
  resolves c key nsName name namespace pipeline →
  call ∈ (syncHandler c key).2 →
  addressee call = (nsName, Name (Meta pipeline)) ∧
  ∀ copy, carried call = Some copy → ownMarksOnly pipeline copy.
Proof.
  intros Hres.
  pose proof (ownMarksOnly_prepared pipeline).
  pose proof (ownMarksOnly_synced pipeline).
  pose proof (ownMarksOnly_released pipeline).
  pose proof (ownMarksOnly_refl pipeline).
  handler_cases Hres pipeline; case_world; intros Hin;
    repeat (apply elem_of_cons in Hin as [->|Hin];
            [split; [done|]; intros copy Hc; by simplify_eq/=|]);
    by apply elem_of_nil in Hin.
Qed.

Lemma calls_carry_own_marks_only_witness :
  resolves (Examples.cluster Examples.created (Examples.failing 404)) "proj/p" "proj" "p"
    Examples.project Examples.created ∧
  CallPipelinesUpdate "proj" (synced Examples.created)
    ∈ (syncHandler (Examples.cluster Examples.created (Examples.failing 404)) "proj/p").2 ∧
  ownMarksOnly Examples.created (synced Examples.created).
Proof.
  assert (resolves (Examples.cluster Examples.created (Examples.failing 404))
            "proj/p" "proj" "p" Examples.project Examples.created) as Hres
    by (repeat split; reflexivity).
  assert (CallPipelinesUpdate "proj" (synced Examples.created)
            ∈ (syncHandler (Examples.cluster Examples.created (Examples.failing 404))
                 "proj/p").2) as Hin by (right; right; left).
  split; [exact Hres|]. split; [exact Hin|].
  apply (calls_carry_own_marks_only _ _ _ _ _ _ _ Hres Hin). reflexivity.
Defined.

Lemma storedAs_live stored written :
  storedAs stored written → live written → live stored.
Proof. intros (_ & _ & Hd & _) Hlive. unfold live. by rewrite Hd. Qed.

Lemma storedAs_annotations stored written :
  storedAs stored written → annotations stored = annotations written.
Proof. intros (_ & _ & _ & Ha & _). unfold annotations. by rewrite Ha. Qed.

Lemma synced_status pipeline :
  annotations (synced pipeline) !! devopsv1alpha3.PipelineSyncStatusAnnoKey
  = Some modelsdevops.StatusSuccessful.
Proof. unfold synced, annotate, annotations. simpl. by rewrite lookup_insert_eq. Qed.

(** A pipeline that already carried sync-status successful is on the fast
    path once its synced copy is stored. *)
Lemma storedAs_synced_fastPath stored pipeline :
  storedAs stored (synced pipeline) →
  annotations pipeline !! devopsv1alpha3.PipelineSyncStatusAnnoKey
    = Some modelsdevops.StatusSuccessful →
  fastPath stored.
Proof.
  intros Hstored Hs. unfold fastPath.
  rewrite (storedAs_annotations _ _ Hstored), synced_status. split; [done|].
  destruct Hstored as (-> & _). unfold synced, annotate, prepared, annotations. simpl.
  rewrite lookup_insert_ne by done. unfold annotations in Hs.
  by rewrite decide_True, lookup_insert_eq.
Qed.

(** One successful invocation on a live pipeline, seen from the next one:
    the lister serves the same pipeline when nothing was to do, and the
    stored synced copy otherwise. *)
Lemma live_invocation_step c key nsName name namespace pipeline client' :
  resolves c key nsName name namespace pipeline →
  live pipeline →
  Name (Meta pipeline) = name →
  (∀ written, ∃ stored, kubesphereClient c nsName written = Ok stored ∧
                        storedAs stored written) →
  (syncHandler c key).1 = None →
  ∃ next,
    resolves (observe c (syncHandler c key).2 client') key nsName name namespace next ∧
    live next ∧ Name (Meta next) = name ∧
    ((fastPath pipeline ∧ next = pipeline) ∨
     (¬ fastPath pipeline ∧ storedAs next (synced pipeline))).
Proof.
  intros Hres Hlive Hname Hecho.
  destruct (Hecho (synced pipeline)) as (stored & Hstore & Hstored).
  destruct (decide (fastPath pipeline)) as [Hfast|Hslow].
  - rewrite (syncHandler_fastPath _ _ _ _ _ _ Hres Hlive Hfast). intros _.
    exists pipeline. split; [|by auto]. destruct Hres as (? & ? & ? & ?). by repeat split.
  - rewrite (syncHandler_live _ _ _ _ _ _ Hres Hlive Hslow). unfold remoteSync.
    rewrite Hstore.
    assert (Name (Meta (synced pipeline)) = name) as Hname' by done.
    assert (Name (Meta stored) = name) as Hname''.
    { destruct Hstored as (_ & -> & _). done. }
    case_world; intros Hnone; try discriminate Hnone;
      (exists stored; split;
       [destruct Hres as (? & ? & ? & ?); repeat split; try done;
        simpl; rewrite Hstore; simpl; by rewrite decide_True
       |split; [by eapply storedAs_live|by auto]]).
Qed.

(** X7.  Reconciliation of a live pipeline settles within three
    invocations.  If the store keeps what it is handed and the first two
    invocations return nil, the third one finds the pipeline on the fast
    path and makes no call, whatever the DevOps service answered in
    between. *)
Theorem settles_within_three_invocations c key nsName name namespace pipeline
    client1 client2 :
  resolves c key nsName name namespace pipeline →
  live pipeline →
  Name (Meta pipeline) = name →
  (∀ written, ∃ stored, kubesphereClient c nsName written = Ok stored ∧
                        storedAs stored written) →
  (syncHandler c key).1 = None →
  (syncHandler (observe c (syncHandler c key).2 client1) key).1 = None →
  syncHandler
    (observe (observe c (syncHandler c key).2 client1)
       (syncHandler (observe c (syncHandler c key).2 client1) key).2 client2) key
  = (None, []).
Proof.
  intros Hres Hlive Hname Hecho Hfirst Hsecond.
  destruct (live_invocation_step _ _ _ _ _ _ client1 Hres Hlive Hname Hecho Hfirst)
    as (p1 & Hres1 & Hlive1 & Hname1 & Hp1).
  set (c1 := observe c (syncHandler c key).2 client1) in *.
  assert (∀ written, ∃ stored, kubesphereClient c1 nsName written = Ok stored ∧
                               storedAs stored written) as Hecho1 by exact Hecho.
  destruct (live_invocation_step _ _ _ _ _ _ client2 Hres1 Hlive1 Hname1 Hecho1 Hsecond)
    as (p2 & Hres2 & Hlive2 & Hname2 & Hp2).
  apply (syncHandler_fastPath _ _ _ _ _ _ Hres2 Hlive2).
  destruct Hp2 as [[Hfast ->]|[_ Hstored2]]; [done|].
  apply (storedAs_synced_fastPath _ _ Hstored2).
  destruct Hp1 as [[[Hs _] ->]|[_ Hstored1]]; [done|].
  by rewrite (storedAs_annotations _ _ Hstored1), synced_status.
Qed.

Lemma settles_within_three_invocations_witness :
  resolves (Examples.cluster Examples.created (Examples.failing 404)) "proj/p" "proj" "p"
    Examples.project Examples.created ∧
  live Examples.created ∧
  (syncHandler (Examples.cluster Examples.created (Examples.failing 404)) "proj/p").1 = None ∧
  syncHandler
    (observe
       (observe (Examples.cluster Examples.created (Examples.failing 404))
          (syncHandler (Examples.cluster Examples.created (Examples.failing 404))
             "proj/p").2
          (Examples.holding Examples.created))
       (syncHandler
          (observe (Examples.cluster Examples.created (Examples.failing 404))
             (syncHandler (Examples.cluster Examples.created (Examples.failing 404))
                "proj/p").2
             (Examples.holding Examples.created)) "proj/p").2
       (Examples.failing 500)) "proj/p"
  = (None, []).
Proof.
  assert (resolves (Examples.cluster Examples.created (Examples.failing 404))
            "proj/p" "proj" "p" Examples.project Examples.created) as Hres
    by (repeat split; reflexivity).
  assert (live Examples.created) as Hlive by reflexivity.
  split; [exact Hres|]. split; [exact Hlive|]. split; [reflexivity|].
  apply (settles_within_three_invocations _ _ _ _ _ _ _ _ Hres Hlive);
    [reflexivity| |reflexivity|reflexivity].
  intros written. exists written. split; [reflexivity|]. by repeat split.
Defined.

(** X8.  Teardown needs the remote delete once.  When the delete was
    confirmed and the store kept the released copy, the next invocation on
    the pipeline, should it still be served, makes no call at all. *)
Theorem released_pipeline_is_left_alone c key nsName name namespace pipeline stored client' :
  resolves c key nsName name namespace pipeline →
  ¬ live pipeline →
  hasFinalizer pipeline →
  Name (Meta pipeline) = name →
  validValue (Spec pipeline) = true →
  DeleteConfirmed (DeleteProjectPipeline (devopsClient c) nsName (Name (Meta pipeline))) →
  kubesphereClient c nsName (released pipeline) = Ok stored →
  storedAs stored (released pipeline) →
  syncHandler c key
  = (None, [CallDeleteProjectPipeline nsName (Name (Meta pipeline));
            CallPipelinesUpdate nsName (released pipeline)]) ∧
  syncHandler (observe c (syncHandler c key).2 client') key = (None, []).
Proof.
  intros Hres Hdel Hfin Hname Hvalid Hconfirmed%delSuccess_confirmed Hstore Hstored.
  rewrite (syncHandler_deleting _ _ _ _ _ _ Hres Hdel).
  rewrite decide_True by done. cbv zeta. rewrite Hconfirmed, Hstore. split; [done|].
  assert (resolves (observe c [CallDeleteProjectPipeline nsName (Name (Meta pipeline));
                               CallPipelinesUpdate nsName (released pipeline)] client')
            key nsName name namespace stored) as Hres'.
  { destruct Hres as (? & ? & ? & ?). repeat split; try done.
    simpl. rewrite Hstore. simpl. by rewrite decide_True. }
  destruct Hstored as (Hspec & _ & Hd & _ & Hf).
  assert (¬ live stored) as Hdel' by (unfold live; by rewrite Hd).
  assert (¬ hasFinalizer stored) as Hfin'.
  { unfold hasFinalizer. rewrite Hf. apply released_no_finalizer. }
  simpl. rewrite (syncHandler_deleting _ _ _ _ _ _ Hres' Hdel').
  rewrite decide_False, DeepEqualPipeline_refl; [done| |done].
  by rewrite Hspec.
Qed.

Lemma released_pipeline_is_left_alone_witness :
  resolves (Examples.cluster Examples.deleting (Examples.failing 404)) "proj/p" "proj" "p"
    Examples.project Examples.deleting ∧
  ¬ live Examples.deleting ∧
  hasFinalizer Examples.deleting ∧
  validValue (Spec Examples.deleting) = true ∧
  DeleteConfirmed (DeleteProjectPipeline (Examples.failing 404) "proj" "p") ∧
  syncHandler
    (observe (Examples.cluster Examples.deleting (Examples.failing 404))
       (syncHandler (Examples.cluster Examples.deleting (Examples.failing 404)) "proj/p").2
       (Examples.failing 500)) "proj/p"
  = (None, []).
Proof.
  assert (resolves (Examples.cluster Examples.deleting (Examples.failing 404))
            "proj/p" "proj" "p" Examples.project Examples.deleting) as Hres
    by (repeat split; reflexivity).
  assert (¬ live Examples.deleting) as Hdel by (unfold live; simpl; discriminate).
  assert (hasFinalizer Examples.deleting) as Hfin by (unfold hasFinalizer; simpl; by left).
  assert (DeleteConfirmed (DeleteProjectPipeline (Examples.failing 404) "proj" "p"))
    as Hconfirmed by constructor.
  split; [exact Hres|]. split; [exact Hdel|]. split; [exact Hfin|].
  split; [reflexivity|]. split; [exact Hconfirmed|].
  apply (released_pipeline_is_left_alone _ _ _ _ _ _ (released Examples.deleting)
           (Examples.failing 500) Hres Hdel Hfin);
    [reflexivity|reflexivity|exact Hconfirmed|reflexivity|by repeat split].
Defined.

(** * Further properties of the hash *)

Lemma Write_range hash data :
  0 ≤ hash < 2 ^ 32 → 0 ≤ fnv.Write hash data < 2 ^ 32.
Proof.
  revert hash. induction data as [|c rest IH]; intros hash Hrange; simpl; [done|].
  apply IH. apply Z.mod_pos_bound. lia.
Qed.

Lemma deepHashObject_range obj : 0 ≤ deepHashObject obj < 2 ^ 32.
Proof. apply Write_range. unfold fnv.New32a, fnv.offset32. lia. Qed.

Lemma pretty_N_char_digit x : pretty_N_char x ∈ digits.
Proof.
  unfold pretty_N_char, digits. repeat case_match; set_solver.
Qed.

Lemma pretty_N_go_digits x s :
  Forall (λ ch, ch ∈ digits) (chars s) →
  Forall (λ ch, ch ∈ digits) (chars (pretty_N_go x s)).
Proof.
  revert s. induction (N.lt_wf_0 x) as [x _ IH]; intros s Hs.
  destruct (decide (0 < x)%N) as [Hx|Hx].
  - rewrite pretty_N_go_step by done. apply IH; [apply N.div_lt; lia|].
    simpl. constructor; [apply pretty_N_char_digit|done].
  - assert (x = 0%N) as -> by lia. by rewrite pretty_N_go_0.
Qed.

Lemma pretty_N_go_length (n : nat) : ∀ x s,
  (x < 10 ^ N.of_nat n)%N →
  (String.length (pretty_N_go x s) ≤ n + String.length s)%nat.
Proof.
  induction n as [|n IH]; intros x s Hx.
  - assert (x = 0%N) as -> by (simpl in Hx; lia). rewrite pretty_N_go_0. lia.
  - destruct (decide (0 < x)%N) as [Hpos|Hpos].
    + rewrite pretty_N_go_step by done.
      etrans; [apply IH|simpl; lia].
      apply N.Div0.div_lt_upper_bound.
      by rewrite Nat2N.inj_succ, N.pow_succ_r' in Hx.
    + assert (x = 0%N) as -> by lia. rewrite pretty_N_go_0. lia.
Qed.

(** The decimal print of a 32-bit sum: one to ten digits. *)
Lemma pretty_sum (x : Z) :
  0 ≤ x < 2 ^ 32 →
  Forall (λ ch, ch ∈ digits) (chars (pretty x)) ∧
  (1 ≤ String.length (pretty x) ≤ 10)%nat.
Proof.
  intros Hx. destruct x as [|p|p]; [|  |lia].
  - split; [|simpl; lia]. repeat constructor.
  - change (pretty (Z.pos p)) with (pretty (N.pos p)).
    unfold pretty, pretty_N. rewrite decide_False by done.
    split; [by apply pretty_N_go_digits|]. split.
    + pose proof (pretty_N_nonempty (N.pos p)) as Hne.
      unfold pretty, pretty_N in Hne. rewrite decide_False in Hne by done.
      destruct (pretty_N_go (N.pos p) ""); [done|simpl; lia].
    + etrans; [apply (pretty_N_go_length 10)|simpl; lia].
      change (10 ^ N.of_nat 10)%N with 10000000000%N. lia.
Qed.

Lemma SafeEncodeString_chars s :
  chars (rand.SafeEncodeString s) = map rand.encodeByte (chars s).
Proof. induction s as [|c rest IH]; simpl; by f_equal. Qed.

Lemma SafeEncodeString_length s :
  String.length (rand.SafeEncodeString s) = String.length s.
Proof. induction s as [|c rest IH]; simpl; by f_equal. Qed.

Lemma encodeByte_digit ch : ch ∈ digits → rand.encodeByte ch ∈ tokenChars.
Proof.
  unfold digits. intros Hin.
  repeat (apply elem_of_cons in Hin as [->|Hin]; [vm_compute; set_solver|]).
  by apply elem_of_nil in Hin.
Qed.

Lemma encodeByte_digit_inj a b :
  a ∈ digits → b ∈ digits → rand.encodeByte a = rand.encodeByte b → a = b.
Proof.
  unfold digits. intros Ha Hb.
  repeat (apply elem_of_cons in Ha as [->|Ha];
          [repeat (apply elem_of_cons in Hb as [->|Hb];
                   [vm_compute; congruence|]);
           by apply elem_of_nil in Hb|]).
  by apply elem_of_nil in Ha.
Qed.

Lemma SafeEncodeString_digits_inj s1 s2 :
  Forall (λ ch, ch ∈ digits) (chars s1) →
  Forall (λ ch, ch ∈ digits) (chars s2) →
  rand.SafeEncodeString s1 = rand.SafeEncodeString s2 → s1 = s2.
Proof.
  revert s2. induction s1 as [|a s1 IH]; intros [|b s2]; simpl; try done.
  intros [Ha H1]%Forall_cons [Hb H2]%Forall_cons [= Hab Heq].
  f_equal; [by apply encodeByte_digit_inj|by apply IH].
Qed.

(** X9.  The hash token of any value has between one and ten characters,
    each of them one of [4 5 6 7 8 9 b c d f]: the decimal digits of a
    32-bit sum, moved into the alphabet without vowels. *)
Theorem computeHash_token obj :
  (1 ≤ String.length (computeHash obj) ≤ 10)%nat ∧
  Forall (λ ch, ch ∈ tokenChars) (chars (computeHash obj)).
Proof.
  destruct (pretty_sum _ (deepHashObject_range obj)) as [Hdigits Hlen].
  unfold computeHash. rewrite SafeEncodeString_length, SafeEncodeString_chars.
  split; [done|]. apply Forall_fmap. eapply Forall_impl; [exact Hdigits|].
  intros ch. apply encodeByte_digit.
Qed.

(** X10.  The token loses nothing of the sum: two values have the same
    hash token exactly when their printed forms have the same FNV-1a
    sum. *)
Theorem computeHash_eq_iff_sum_eq S1 S2 :
  computeHash S1 = computeHash S2 ↔ deepHashObject S1 = deepHashObject S2.
Proof.
  split; [|unfold computeHash; by intros ->].
  unfold computeHash. intros Heq.
  destruct (pretty_sum _ (deepHashObject_range S1)) as [H1 _].
  destruct (pretty_sum _ (deepHashObject_range S2)) as [H2 _].
  apply (inj pretty). by apply SafeEncodeString_digits_inj.
Qed.

(** X11.  Writing a string into the hasher piece by piece leaves the
    hasher where writing it at once does, so the sum of [deepHashObject]
    does not depend on how the printer cuts its output into writes; the
    sum stays a 32-bit number. *)
Theorem Write_in_pieces hash piece rest :
  fnv.Write (fnv.Write hash piece) rest = fnv.Write hash (piece +:+ rest) ∧
  (0 ≤ hash < 2 ^ 32 → 0 ≤ fnv.Write hash (piece +:+ rest) < 2 ^ 32).
Proof.
  split; [|apply Write_range].
  revert hash. induction piece as [|c piece IH]; intros hash; [done|].
  change (String c piece +:+ rest) with (String c (piece +:+ rest)). simpl. apply IH.
Qed.

Lemma Write_in_pieces_witness :
  0 ≤ fnv.New32a < 2 ^ 32 ∧
  fnv.Write (fnv.Write fnv.New32a "(string)") "pipeline"
  = fnv.Write fnv.New32a "(string)pipeline" ∧
  0 ≤ fnv.Write fnv.New32a "(string)pipeline" < 2 ^ 32.
Proof.
  assert (0 ≤ fnv.New32a < 2 ^ 32) as Hrange
    by (unfold fnv.New32a, fnv.offset32; lia).
  split; [exact Hrange|].
  destruct (Write_in_pieces fnv.New32a "(string)" "pipeline") as [Hpieces Hbound].
  split; [exact Hpieces|exact (Hbound Hrange)].
Defined.

(** * Further properties of the event intake *)

Lemma append_cons c s1 s2 : String c s1 +:+ s2 = String c (s1 +:+ s2).
Proof. done. Qed.

Lemma Split_noSlash cur s :
  noSlash s = true → cache.Split cur s = [String.rev_app cur s].
Proof.
  revert cur. induction s as [|c rest IH]; intros cur; simpl; [done|].
  intros [Hc%negb_true_iff%bool_decide_eq_false Hrest]%andb_true_iff.
  rewrite decide_False by done. by rewrite IH.
Qed.

Lemma Split_slash cur a b :
  noSlash a = true →
  cache.Split cur (a +:+ String "/" b) = String.rev_app cur a :: cache.Split "" b.
Proof.
  revert cur. induction a as [|c rest IH]; intros cur; simpl.
  - intros _. change ("" +:+ String "/" b) with (String "/" b).
    reflexivity.
  - intros [Hc%negb_true_iff%bool_decide_eq_false Hrest]%andb_true_iff.
    rewrite ?append_cons. simpl. rewrite decide_False by done. by rewrite IH.
Qed.

(** X12.  The key the event handlers enqueue for a pipeline takes the
    handler back to that pipeline: when neither its namespace nor its
    name holds a slash, [enqueuePipeline] adds exactly one key, and
    [SplitMetaNamespaceKey] splits that key into the namespace and the
    name of the pipeline.  An update event enqueues the same key, unless
    the resource version did not change, in which case it enqueues
    nothing. *)
Theorem enqueued_key_splits_back (p : Pipeline) :
  noSlash (metaNamespace (Meta p)) = true →
  noSlash (Name (Meta p)) = true →
  ∃ key,
    enqueuePipeline (PipelineObject p) = [key] ∧
    cache.SplitMetaNamespaceKey key = Ok (metaNamespace (Meta p), Name (Meta p)) ∧
    ∀ old, UpdateFunc old p =
           if decide (ResourceVersion (Meta old) = ResourceVersion (Meta p))
           then [] else [key].
Proof.
  intros Hns Hname. unfold UpdateFunc, enqueuePipeline, MetaNamespaceKeyFunc.
  case_decide as Hlen.
  - eexists. split; [done|]. split.
    + unfold cache.SplitMetaNamespaceKey.
      change (metaNamespace (Meta p) +:+ "/" +:+ Name (Meta p))
        with (metaNamespace (Meta p) +:+ String "/" (Name (Meta p))).
      by rewrite Split_slash, Split_noSlash.
    + intros old. by case_bool_decide; [rewrite decide_True|rewrite decide_False].
  - eexists. split; [done|]. split.
    + unfold cache.SplitMetaNamespaceKey. rewrite Split_noSlash by done. simpl.
      destruct (metaNamespace (Meta p)); [done|simpl in Hlen; lia].
    + intros old. by case_bool_decide; [rewrite decide_True|rewrite decide_False].
Qed.

Lemma enqueued_key_splits_back_witness :
  noSlash (metaNamespace (Meta Examples.created)) = true ∧
  noSlash (Name (Meta Examples.created)) = true ∧
  ∃ key,
    enqueuePipeline (PipelineObject Examples.created) = [key] ∧
    cache.SplitMetaNamespaceKey key = Ok ("proj", "p") ∧
    ∀ old, UpdateFunc old Examples.created =
           if decide (ResourceVersion (Meta old) = ResourceVersion (Meta Examples.created))
           then [] else [key].
Proof.
  split; [reflexivity|]. split; [reflexivity|].
  apply (enqueued_key_splits_back Examples.created); reflexivity.
Defined.

(** * Further properties across the handler and the hash *)

Lemma prepared_NoDup pipeline :
  NoDup (Finalizers (Meta pipeline)) → NoDup (Finalizers (Meta (prepared pipeline))).
Proof.
  intros Hnd. unfold prepared. simpl. case_decide as Hfin; [done|].
  apply NoDup_app. split; [done|]. split; [|apply NoDup_singleton].
  intros f Hf ->%list_elem_of_singleton. by apply Hfin.
Qed.

Lemma released_NoDup pipeline :
  NoDup (Finalizers (Meta pipeline)) → NoDup (Finalizers (Meta (released pipeline))).
Proof.
  rewrite !NoDup_ListNoDup. unfold released, sliceutil.RemoveString. simpl.
  apply List.NoDup_filter.
Qed.

(** X13.  The handler keeps the finalizer list free of duplicates: when
    the served pipeline lists no finalizer twice, neither does any copy
    handed to the DevOps client or to the store, so the controller's tag
    is never added a second time. *)
Theorem finalizers_stay_duplicate_free c key nsName name namespace pipeline call copy :
  resolves c key nsName name namespace pipeline →
  NoDup (Finalizers (Meta pipeline)) →
  call ∈ (syncHandler c key).2 →
  carried call = Some copy →
  NoDup (Finalizers (Meta copy)).
Proof.
  intros Hres Hnd.
  pose proof (prepared_NoDup _ Hnd) as Hprep.
  assert (NoDup (Finalizers (Meta (synced pipeline)))) as Hsync by exact Hprep.
  pose proof (released_NoDup _ Hnd) as Hrel.
  handler_cases Hres pipeline; case_world; intros Hin Hc;
    repeat (apply elem_of_cons in Hin as [->|Hin]; [by simplify_eq/=|]);
    by apply elem_of_nil in Hin.
Qed.

Lemma finalizers_stay_duplicate_free_witness :
  resolves (Examples.cluster Examples.created (Examples.failing 404)) "proj/p" "proj" "p"
    Examples.project Examples.created ∧
  NoDup (Finalizers (Meta Examples.created)) ∧
  CallPipelinesUpdate "proj" (synced Examples.created)
    ∈ (syncHandler (Examples.cluster Examples.created (Examples.failing 404)) "proj/p").2 ∧
  NoDup (Finalizers (Meta (synced Examples.created))).
Proof.
  assert (resolves (Examples.cluster Examples.created (Examples.failing 404))
            "proj/p" "proj" "p" Examples.project Examples.created) as Hres
    by (repeat split; reflexivity).
  assert (NoDup (Finalizers (Meta Examples.created))) as Hnd by constructor.
  assert (CallPipelinesUpdate "proj" (synced Examples.created)
            ∈ (syncHandler (Examples.cluster Examples.created (Examples.failing 404))
                 "proj/p").2) as Hin by (right; right; left).
  split; [exact Hres|]. split; [exact Hnd|]. split; [exact Hin|].
  apply (finalizers_stay_duplicate_free _ _ _ _ _ _ _ _ Hres Hnd Hin). reflexivity.
Defined.

(** X14.  The fast path does not depend on the order in which the maps of
    the spec hand out their entries: a live pipeline whose annotations
    are those of a pipeline on the fast path, and whose spec is deeply
    equal to the spec of that pipeline, is served without a call. *)
Theorem fast_path_ignores_map_order c key nsName name namespace pipeline settled :
  resolves c key nsName name namespace pipeline →
  live pipeline →
  fastPath settled →
  annotations pipeline = annotations settled →
  validValue (Spec settled) = true →
  validValue (Spec pipeline) = true →
  DeepEqual (Spec settled) (Spec pipeline) = true →
  fastPath pipeline ∧ syncHandler c key = (None, []).
Proof.
  intros Hres Hlive [Hs Hh] Hanns Hv1 Hv2 Heq.
  assert (fastPath pipeline) as Hfast.
  { unfold fastPath. rewrite Hanns. split; [done|]. rewrite Hh. f_equal.
    unfold computeHash, deepHashObject, spew.Fprintf.
    by rewrite (format_DeepEqual (Spec settled) false (Spec pipeline)). }
  split; [done|]. by apply (syncHandler_fastPath _ _ _ _ _ _ Hres Hlive).
Qed.

Lemma fast_path_ignores_map_order_witness :
  resolves (Examples.cluster MoreExamples.labelledBA (Examples.failing 500))
    "proj/p" "proj" "p" Examples.project MoreExamples.labelledBA ∧
  live MoreExamples.labelledBA ∧
  fastPath MoreExamples.labelledAB ∧
  Spec MoreExamples.labelledAB ≠ Spec MoreExamples.labelledBA ∧
  DeepEqual (Spec MoreExamples.labelledAB) (Spec MoreExamples.labelledBA) = true ∧
  syncHandler (Examples.cluster MoreExamples.labelledBA (Examples.failing 500)) "proj/p"
  = (None, []).
Proof.
  assert (resolves (Examples.cluster MoreExamples.labelledBA (Examples.failing 500))
            "proj/p" "proj" "p" Examples.project MoreExamples.labelledBA) as Hres
    by (repeat split; reflexivity).
  assert (live MoreExamples.labelledBA) as Hlive by reflexivity.
  assert (fastPath MoreExamples.labelledAB) as Hfast by (split; reflexivity).
  split; [exact Hres|]. split; [exact Hlive|]. split; [exact Hfast|].
  split; [discriminate|]. split; [vm_compute; reflexivity|].
  apply (fast_path_ignores_map_order _ _ _ _ _ _ MoreExamples.labelledAB Hres Hlive Hfast);
    [reflexivity|vm_compute; reflexivity..].
Defined.
